(** * ArgonSceneExporter (opencmiss.exporter.thumbnail)

    A shallow embedding of [src/opencmiss/exporter/thumbnail.py]: the
    exporter object, the process state it touches (working directory,
    logger, the Qt application singleton, the graphics calls it issues) and
    the three methods [load], [export] and [export_thumbnail], written in a
    small state-and-exception monad so that the Rocq text follows the
    Python statement by statement. *)

From Stdlib Require Import String Ascii List Bool ZArith QArith Lia.
Import ListNotations.
Local Open Scope string_scope.

Set Implicit Arguments.

(** ** Paths: the two [os.path] functions the module calls (POSIX flavour) *)

Module OsPath.

Definition sep : ascii := "/"%char.

Definition startswith_sep (s : string) : bool :=
  match s with
  | String c _ => Ascii.eqb c sep
  | EmptyString => false
  end.

Fixpoint endswith_sep (s : string) : bool :=
  match s with
  | EmptyString => false
  | String c EmptyString => Ascii.eqb c sep
  | String _ s' => endswith_sep s'
  end.

Definition is_empty (s : string) : bool :=
  match s with EmptyString => true | _ => false end.

(** [posixpath.join(a, b)] for one trailing component. *)
Definition join (a b : string) : string :=
  if startswith_sep b then b
  else if is_empty a || endswith_sep a then a ++ b
  else a ++ String sep b.

(** [p[:p.rfind('/') + 1]] *)
Fixpoint upto_last_sep (p : string) : string :=
  match p with
  | EmptyString => EmptyString
  | String c p' =>
      match upto_last_sep p' with
      | EmptyString => if Ascii.eqb c sep then String c EmptyString else EmptyString
      | h => String c h
      end
  end.

Fixpoint all_sep (s : string) : bool :=
  match s with
  | EmptyString => true
  | String c s' => Ascii.eqb c sep && all_sep s'
  end.

(** [s.rstrip('/')] *)
Fixpoint rstrip_sep (s : string) : string :=
  match s with
  | EmptyString => EmptyString
  | String c s' =>
      match rstrip_sep s' with
      | EmptyString => if Ascii.eqb c sep then EmptyString else String c EmptyString
      | r => String c r
      end
  end.

(** [posixpath.dirname(p)] *)
Definition dirname (p : string) : string :=
  let head := upto_last_sep p in
  if negb (is_empty head) && negb (all_sep head) then rstrip_sep head else head.

End OsPath.

(** ** Exceptions *)

Inductive exn_class : Type :=
| ArgonError
| IOError
| ValueError
| ImportError
| NotImplementedError
| OpenCMISSExportThumbnailError
| AttributeError
| KeyError
| RuntimeError
| KeyboardInterrupt.

Record exn : Type := Exn { exn_cls : exn_class; exn_str : string }.

(** [except (ArgonError, IOError, ValueError)] *)
Definition is_load_error (e : exn) : bool :=
  match exn_cls e with
  | ArgonError | IOError | ValueError => true
  | _ => false
  end.

(** [except Exception]: everything but the [BaseException]-only classes. *)
Definition is_Exception (e : exn) : bool :=
  match exn_cls e with
  | KeyboardInterrupt => false
  | _ => true
  end.

(** [except ImportError] *)
Definition is_ImportError (e : exn) : bool :=
  match exn_cls e with
  | ImportError => true
  | _ => false
  end.

Inductive outcome (A : Type) : Type :=
| Return (a : A)
| Raise (e : exn).
Arguments Return {A} a.
Arguments Raise {A} e.

(** ** Graphics vocabulary *)

Inductive Attachment : Type := NoAttachment | CombinedDepthStencil | Depth.

Record FboFormat : Type :=
  { fmt_attachment : Attachment; fmt_samples : Z }.

(** [QOpenGLFramebufferObjectFormat()] *)
Definition QOpenGLFramebufferObjectFormat : FboFormat :=
  {| fmt_attachment := NoAttachment; fmt_samples := 0 |}.
Definition setAttachment (a : Attachment) (f : FboFormat) : FboFormat :=
  {| fmt_attachment := a; fmt_samples := fmt_samples f |}.
Definition setSamples (n : Z) (f : FboFormat) : FboFormat :=
  {| fmt_attachment := fmt_attachment f; fmt_samples := n |}.

Inductive BufferingMode : Type := BUFFERING_MODE_DEFAULT | BUFFERING_MODE_SINGLE | BUFFERING_MODE_DOUBLE.
Inductive StereoMode : Type := STEREO_MODE_DEFAULT | STEREO_MODE_MONO | STEREO_MODE_STEREO.

Record ViewParameters : Type :=
  { eyePosition : list Q;
    lookAtPosition : list Q;
    upVector : list Q;
    nearClippingPlane : Q;
    farClippingPlane : Q;
    viewAngle : Q }.

(** What the process can be observed to do to the graphics stack and the
    output directory, in program order. *)
Inductive Event : Type :=
| EvQGuiApplication
| EvOffscreenSurfaceCreate
| EvContextCreate
| EvMakeCurrent
| EvFboNew (width height : Z) (format : FboFormat)
| EvFboBind
| EvCreateSceneviewer (b : BufferingMode) (s : StereoMode)
| EvSetViewportSize (width height : Z)
| EvSetLookatParametersNonSkew (eye lookat up : list Q)
| EvSetFarClippingPlane (q : Q)
| EvSetNearClippingPlane (q : Q)
| EvSetViewAngle (q : Q)
| EvSetScene
| EvRenderScene
| EvToImage
| EvImageSave (path : string)
| EvFboRelease.

(** The library calls of the rendering block that may raise; the
    environment says which of them do. *)
Inductive Step : Type :=
| StMakeCurrent
| StFboFormat
| StFboNew
| StFboBind
| StGetZincContext
| StGetSceneviewermodule
| StCreateSceneviewer
| StSetViewportSize
| StGetViewParameters
| StSetLookat
| StSetFar
| StSetNear
| StSetViewAngle
| StGetScene
| StSetScene
| StRenderScene
| StToImage
| StImageSave
| StFboRelease.

(** ** The environment of one call and the process state *)

Record Env : Type :=
  { PySide2_importable : bool;
    zinc_importable : bool;
    off_screen_isValid : bool;
    context_create : bool;
    raises : Step -> option exn;
    (* [open(filename, 'r').read()], relative to the working directory *)
    open_read : string -> string -> outcome string;
    (* the directory [os.chdir(path)] ends up in, if it can be entered *)
    resolve_dir : string -> string -> option string }.

Record World : Type :=
  { cwd : string;
    log : list string;
    qapp_instance : bool;
    qapp_created : nat;
    trace : list Event }.

(** ** The document interface (opencmiss.argon.argondocument) *)

Class ArgonDocumentOps (Doc : Type) : Type :=
  { ArgonDocument : Doc;
    initialiseVisualisationContents : Doc -> Doc;
    freeVisualisationContents : Doc -> Doc;
    serialize : Doc -> string;
    (* [deserialize] resolves external resources against the working
       directory and may raise, leaving the document as far as it got *)
    deserialize : string -> Doc -> string -> Doc * option exn;
    get_view_parameters : Doc -> ViewParameters }.

(** ** The exporter object and the monad its methods run in *)

Section Exporter.

Context {Doc : Type} `{DocOps : ArgonDocumentOps Doc}.

Record ArgonSceneExporter : Type :=
  { _output_target : string;
    _prefix : string;
    _document : option Doc;
    _filename : option string;
    _initialTime : option Q;
    _finishTime : option Q;
    _numberOfTimeSteps : Z }.

(** [__init__(self, output_target=None, output_prefix=None)] *)
Definition init (output_target output_prefix : option string) : ArgonSceneExporter :=
  {| _output_target := match output_target with None => "." | Some t => t end;
     _prefix := match output_prefix with
                | None => "ArgonSceneExporterThumbnail"
                | Some p => p
                end;
     _document := None;
     _filename := None;
     _initialTime := None;
     _finishTime := None;
     _numberOfTimeSteps := 10 |}.

Record State : Type := { self : ArgonSceneExporter; world : World }.

(** Side effects made before an exception is raised stay made, so the
    state is threaded through both outcomes. *)
Definition M (A : Type) : Type := State -> State * outcome A.

Definition ret {A} (a : A) : M A := fun st => (st, Return a).
Definition raise {A} (e : exn) : M A := fun st => (st, Raise e).
Definition bind {A B} (m : M A) (k : A -> M B) : M B :=
  fun st =>
    match m st with
    | (st', Return a) => k a st'
    | (st', Raise e) => (st', Raise e)
    end.

(** [try: body  except <handler>]: the handler picks the exceptions it
    catches and runs in the state the body left behind. *)
Definition try_except {A} (body : M A) (handler : exn -> option (M A)) : M A :=
  fun st =>
    match body st with
    | (st', Return a) => (st', Return a)
    | (st', Raise e) =>
        match handler e with
        | Some h => h st'
        | None => (st', Raise e)
        end
    end.

Definition gets {A} (f : State -> A) : M A := fun st => (st, Return (f st)).
Definition modify_self (f : ArgonSceneExporter -> ArgonSceneExporter) : M unit :=
  fun st => ({| self := f (self st); world := world st |}, Return tt).
Definition modify_world (f : World -> World) : M unit :=
  fun st => ({| self := self st; world := f (world st) |}, Return tt).

End Exporter.

Arguments ArgonSceneExporter Doc : clear implicits.
Arguments State Doc : clear implicits.
Arguments M Doc A : clear implicits.

Declare Scope py_scope.
Delimit Scope py_scope with py.
Notation "x <- m ;; k" := (bind m (fun x => k))
  (at level 61, m at next level, right associativity) : py_scope.
Notation "m ;; k" := (bind m (fun _ => k))
  (at level 61, right associativity) : py_scope.
Local Open Scope py_scope.

Section Methods.

Context {Doc : Type} `{DocOps : ArgonDocumentOps Doc}.

Abbreviation M := (M Doc).

(** *** Field updates *)

Definition with_document (d : option Doc) (s : ArgonSceneExporter Doc) :=
  {| _output_target := _output_target s; _prefix := _prefix s;
     _document := d; _filename := _filename s;
     _initialTime := _initialTime s; _finishTime := _finishTime s;
     _numberOfTimeSteps := _numberOfTimeSteps s |}.

Definition with_filename (f : option string) (s : ArgonSceneExporter Doc) :=
  {| _output_target := _output_target s; _prefix := _prefix s;
     _document := _document s; _filename := f;
     _initialTime := _initialTime s; _finishTime := _finishTime s;
     _numberOfTimeSteps := _numberOfTimeSteps s |}.

Definition with_output_target (t : string) (s : ArgonSceneExporter Doc) :=
  {| _output_target := t; _prefix := _prefix s;
     _document := _document s; _filename := _filename s;
     _initialTime := _initialTime s; _finishTime := _finishTime s;
     _numberOfTimeSteps := _numberOfTimeSteps s |}.

Definition with_cwd (d : string) (w : World) : World :=
  {| cwd := d; log := log w; qapp_instance := qapp_instance w;
     qapp_created := qapp_created w; trace := trace w |}.

Definition with_log (l : list string) (w : World) : World :=
  {| cwd := cwd w; log := l; qapp_instance := qapp_instance w;
     qapp_created := qapp_created w; trace := trace w |}.

Definition with_event (ev : Event) (w : World) : World :=
  {| cwd := cwd w; log := log w; qapp_instance := qapp_instance w;
     qapp_created := qapp_created w; trace := trace w ++ [ev] |}.

Definition with_qapp (w : World) : World :=
  {| cwd := cwd w; log := log w; qapp_instance := true;
     qapp_created := S (qapp_created w); trace := trace w ++ [EvQGuiApplication] |}.

(** [set_document], [set_filename], [set_parameters] *)
Definition set_document (document : option Doc) : M unit :=
  modify_self (with_document document).

Definition set_filename (filename : option string) : M unit :=
  modify_self (with_filename filename).

Definition set_parameters (numberOfTimeSteps : Z) (initialTime finishTime : option Q)
    (prefix : string) : M unit :=
  modify_self (fun s =>
    {| _output_target := _output_target s; _prefix := prefix;
       _document := _document s; _filename := _filename s;
       _initialTime := initialTime; _finishTime := finishTime;
       _numberOfTimeSteps := numberOfTimeSteps |}).

(** *** Process primitives *)

Definition getcwd : M string := gets (fun st => cwd (world st)).

(** [os.chdir(path)]: the empty path is never a directory. *)
Definition chdir (env : Env) (path : string) : M unit :=
  here <- getcwd ;;
  if OsPath.is_empty path then
    raise (Exn IOError "[Errno 2] No such file or directory: ''")
  else
    match resolve_dir env here path with
    | Some d => modify_world (with_cwd d)
    | None => raise (Exn IOError ("[Errno 2] No such file or directory: '" ++ path ++ "'"))
    end.

(** [with open(filename, 'r') as f: state = f.read()] *)
Definition read_text (env : Env) (filename : string) : M string :=
  here <- getcwd ;;
  match open_read env here filename with
  | Return s => ret s
  | Raise e => raise e
  end.

(** [ArgonLogger.getLogger().error(msg)] *)
Definition logger_error (msg : string) : M unit :=
  modify_world (fun w => with_log (log w ++ [msg]) w).

Definition emit (ev : Event) : M unit := modify_world (with_event ev).

(** One library call of the rendering block: it raises when the
    environment says so and has no effect then. *)
Definition check (env : Env) (s : Step) : M unit :=
  match raises env s with
  | Some e => raise e
  | None => ret tt
  end.

Definition call (env : Env) (s : Step) (ev : Event) : M unit :=
  check env s ;; emit ev.

(** A method call on [self._document]: [None] has no methods. *)
Definition document_attr {A} (name : string) (k : Doc -> M A) : M A :=
  d <- gets (fun st => _document (self st)) ;;
  match d with
  | Some doc => k doc
  | None => raise (Exn AttributeError
              ("'NoneType' object has no attribute '" ++ name ++ "'"))
  end.

Definition document_initialiseVisualisationContents : M unit :=
  document_attr "initialiseVisualisationContents"
    (fun doc => set_document (Some (initialiseVisualisationContents doc))).

Definition document_freeVisualisationContents : M unit :=
  document_attr "freeVisualisationContents"
    (fun doc => set_document (Some (freeVisualisationContents doc))).

Definition document_serialize : M string :=
  document_attr "serialize" (fun doc => ret (serialize doc)).

Definition document_deserialize (state : string) : M unit :=
  document_attr "deserialize" (fun doc =>
    here <- getcwd ;;
    match deserialize here doc state with
    | (doc', None) => set_document (Some doc')
    | (doc', Some e) => set_document (Some doc') ;; raise e
    end).

(** *** [load] *)

Definition load_handler (filename : string) (e : exn) : option (M bool) :=
  if is_load_error e then
    Some (logger_error ("Failed to load Argon visualisation " ++ filename ++ ": "
                        ++ exn_str e) ;;
          ret false)
  else if is_Exception e then
    Some (logger_error ("Failed to load Argon visualisation " ++ filename
                        ++ ": Unknown error " ++ exn_str e) ;;
          ret false)
  else None.

Definition load (env : Env) (filename : option string) : M bool :=
  match filename with
  | None => ret false
  | Some filename =>
      try_except
        (state <- read_text env filename ;;
         current_wd <- getcwd ;;
         let path := OsPath.dirname filename in
         chdir env path ;;
         set_document (Some ArgonDocument) ;;
         document_initialiseVisualisationContents ;;
         document_deserialize state ;;
         chdir env current_wd ;;
         ret true)
        (load_handler filename)
  end.

(** *** [export_thumbnail] *)

(** [from <module> import ...] *)
Definition import (available : bool) (module : string) : M unit :=
  if available then ret tt
  else raise (Exn ImportError ("No module named '" ++ module ++ "'")).

Definition time_varying (s : ArgonSceneExporter Doc) : bool :=
  negb (match _initialTime s with None => true | Some _ => false end
        || match _finishTime s with None => true | Some _ => false end).

Definition thumbnail_path (s : ArgonSceneExporter Doc) : string :=
  OsPath.join (_output_target s) (_prefix s ++ "_thumbnail.jpeg").

(** Lines 110-138: the block under [if context.create():]. *)
Definition render_block (env : Env) : M unit :=
  call env StMakeCurrent EvMakeCurrent ;;
  check env StFboFormat ;;
  let fbo_format := QOpenGLFramebufferObjectFormat in
  let fbo_format := setAttachment CombinedDepthStencil fbo_format in
  let fbo_format := setSamples 4 fbo_format in
  call env StFboNew (EvFboNew 512 512 fbo_format) ;;
  call env StFboBind EvFboBind ;;
  document_attr "getZincContext" (fun _ => check env StGetZincContext) ;;
  check env StGetSceneviewermodule ;;
  call env StCreateSceneviewer
    (EvCreateSceneviewer BUFFERING_MODE_DOUBLE STEREO_MODE_DEFAULT) ;;
  call env StSetViewportSize (EvSetViewportSize 512 512) ;;
  tv <- gets (fun st => time_varying (self st)) ;;
  (if tv then
     raise (Exn NotImplementedError "Time varying image export is not implemented.")
   else ret tt) ;;
  viewDataRaw <- document_attr "getSceneviewer" (fun doc =>
                   check env StGetViewParameters ;;
                   ret (get_view_parameters doc)) ;;
  call env StSetLookat
    (EvSetLookatParametersNonSkew (eyePosition viewDataRaw)
       (lookAtPosition viewDataRaw) (upVector viewDataRaw)) ;;
  call env StSetFar (EvSetFarClippingPlane (farClippingPlane viewDataRaw)) ;;
  call env StSetNear (EvSetNearClippingPlane (nearClippingPlane viewDataRaw)) ;;
  call env StSetViewAngle (EvSetViewAngle (viewAngle viewDataRaw)) ;;
  document_attr "getRootRegion" (fun _ => check env StGetScene) ;;
  call env StSetScene EvSetScene ;;
  call env StRenderScene EvRenderScene ;;
  call env StToImage EvToImage ;;
  path <- gets (fun st => thumbnail_path (self st)) ;;
  call env StImageSave (EvImageSave path) ;;
  call env StFboRelease EvFboRelease.

(** Lines 96-138: the body of the [try]. *)
Definition export_thumbnail_body (env : Env) : M unit :=
  import (PySide2_importable env) "PySide2" ;;
  import (zinc_importable env) "opencmiss.zinc.sceneviewer" ;;
  instance <- gets (fun st => qapp_instance (world st)) ;;
  (if negb instance then modify_world with_qapp else ret tt) ;;
  emit EvOffscreenSurfaceCreate ;;
  if off_screen_isValid env then
    emit EvContextCreate ;;
    if context_create env then render_block env
    else ret tt
  else ret tt.

Definition export_thumbnail (env : Env) : M unit :=
  try_except (export_thumbnail_body env)
    (fun e =>
       if is_ImportError e then
         Some (raise (Exn OpenCMISSExportThumbnailError
           "Thumbnail export not supported without optional requirement PySide2"))
       else None).

(** *** [export] *)

Definition export (env : Env) (output_target : option string) : M unit :=
  (match output_target with
   | Some t => modify_self (with_output_target t)
   | None => ret tt
   end) ;;
  document <- gets (fun st => _document (self st)) ;;
  (match document with
   | None =>
       set_document (Some ArgonDocument) ;;
       document_initialiseVisualisationContents ;;
       filename <- gets (fun st => _filename (self st)) ;;
       _ <- load env filename ;;
       ret tt
   | Some _ =>
       state <- document_serialize ;;
       document_freeVisualisationContents ;;
       document_initialiseVisualisationContents ;;
       document_deserialize state
   end) ;;
  export_thumbnail env.

End Methods.

(** ** A process: a sequence of method calls on one exporter *)

Inductive MethodCall (Doc : Type) : Type :=
| CallSetDocument (document : option Doc)
| CallSetFilename (filename : option string)
| CallSetParameters (numberOfTimeSteps : Z) (initialTime finishTime : option Q)
    (prefix : string)
| CallLoad (filename : option string)
| CallExport (output_target : option string)
| CallExportThumbnail.
Arguments CallSetDocument {Doc} document.
Arguments CallSetFilename {Doc} filename.
Arguments CallSetParameters {Doc} numberOfTimeSteps initialTime finishTime prefix.
Arguments CallLoad {Doc} filename.
Arguments CallExport {Doc} output_target.
Arguments CallExportThumbnail {Doc}.

Section Process.

Context {Doc : Type} `{DocOps : ArgonDocumentOps Doc}.

(** A call is made in the environment of its moment; what it returns or
    raises is dropped, the state it leaves is kept. *)
Definition run_call (c : Env * MethodCall Doc) (st : State Doc) : State Doc :=
  let (env, m) := c in
  match m with
  | CallSetDocument d => fst (set_document d st)
  | CallSetFilename f => fst (set_filename f st)
  | CallSetParameters n t0 t1 p => fst (set_parameters n t0 t1 p st)
  | CallLoad f => fst (load env f st)
  | CallExport t => fst (export env t st)
  | CallExportThumbnail => fst (export_thumbnail env st)
  end.

Definition run_calls (cs : list (Env * MethodCall Doc)) (st : State Doc) : State Doc :=
  fold_left (fun st c => run_call c st) cs st.

(** A process that has just started: nothing logged, no Qt application. *)
Definition fresh_world (dir : string) : World :=
  {| cwd := dir; log := []; qapp_instance := false; qapp_created := 0; trace := [] |}.

Definition fresh_state (dir : string) (s : ArgonSceneExporter Doc) : State Doc :=
  {| self := s; world := fresh_world dir |}.

(** The events a call added to the trace. *)
Definition emitted (before after : State Doc) : list Event :=
  skipn (length (trace (world before))) (trace (world after)).

(** The Qt application singleton is consistent with the creation count. *)
Definition qapp_consistent (w : World) : Prop :=
  (qapp_created w <= 1)%nat /\ (qapp_instance w = false -> qapp_created w = 0%nat).

End Process.

(** ** A small document implementation and concrete environments, used to
    run the methods *)

Module TextDocument.

(** The document is its own serialisation; a text starting with ['!'] is
    malformed. *)
Definition malformed (s : string) : bool :=
  match s with
  | String c _ => Ascii.eqb c "!"%char
  | EmptyString => false
  end.

Definition view : ViewParameters :=
  {| eyePosition := [0; 0; 5]%Q;
     lookAtPosition := [0; 0; 0]%Q;
     upVector := [0; 1; 0]%Q;
     nearClippingPlane := (1 # 10)%Q;
     farClippingPlane := 100%Q;
     viewAngle := 40%Q |}.

#[export] Instance ops : ArgonDocumentOps string :=
  {| ArgonDocument := "";
     initialiseVisualisationContents := fun d => d;
     freeVisualisationContents := fun _ => "";
     serialize := fun d => d;
     deserialize := fun _ d s =>
       if malformed s then (d, Some (Exn ArgonError "malformed document"))
       else (s, None);
     get_view_parameters := fun _ => view |}.

Definition files (_ filename : string) : outcome string :=
  if String.eqb filename "/data/heart.argon" then Return "{heart}"
  else if String.eqb filename "/data/bad.argon" then Return "!"
  else Raise (Exn IOError
         ("[Errno 2] No such file or directory: '" ++ filename ++ "'")).

Definition dirs (_ path : string) : option string :=
  if String.eqb path "/data" then Some "/data"
  else if String.eqb path "/home/user" then Some "/home/user"
  else None.

(** Toolkit installed, surface and context available, nothing raises. *)
Definition desktop : Env :=
  {| PySide2_importable := true; zinc_importable := true;
     off_screen_isValid := true; context_create := true;
     raises := fun _ => None;
     open_read := files; resolve_dir := dirs |}.

(** No display: the off-screen surface is not valid. *)
Definition no_display : Env :=
  {| PySide2_importable := true; zinc_importable := true;
     off_screen_isValid := false; context_create := true;
     raises := fun _ => None;
     open_read := files; resolve_dir := dirs |}.

(** A surface, but no OpenGL context. *)
Definition no_context : Env :=
  {| PySide2_importable := true; zinc_importable := true;
     off_screen_isValid := true; context_create := false;
     raises := fun _ => None;
     open_read := files; resolve_dir := dirs |}.

(** PySide2 is not installed. *)
Definition no_pyside2 : Env :=
  {| PySide2_importable := false; zinc_importable := true;
     off_screen_isValid := true; context_create := true;
     raises := fun _ => None;
     open_read := files; resolve_dir := dirs |}.

(** The driver fails while rendering the scene. *)
Definition render_fails : Env :=
  {| PySide2_importable := true; zinc_importable := true;
     off_screen_isValid := true; context_create := true;
     raises := fun s => match s with
                        | StRenderScene => Some (Exn RuntimeError "render failed")
                        | _ => None
                        end;
     open_read := files; resolve_dir := dirs |}.

Definition exporter : ArgonSceneExporter string := init None None.

Definition loaded : ArgonSceneExporter string :=
  with_document (Some "{heart}") exporter.

(** [set_filename(f)] on a new exporter: the document is still to load. *)
Definition from_file (f : string) : ArgonSceneExporter string :=
  with_filename (Some f) exporter.

Definition timed : ArgonSceneExporter string :=
  {| _output_target := "."; _prefix := "heart";
     _document := Some "{heart}"; _filename := None;
     _initialTime := Some 0%Q; _finishTime := Some 1%Q;
     _numberOfTimeSteps := 10 |}.

End TextDocument.

(** ** The Document Store *)

Module DocumentStore.

(** Modelled from the spec: the Document Store, [ArgonDocument] of
    [opencmiss.argon.argondocument], which is not under src/.  The spec has
    it own the deserialised scene, a view-parameter bundle and lifecycle
    hooks that allocate and free the visualisation resources, and has the
    document be a serialised description that deserialisation rejects when
    malformed.  So: the store holds the description while its resources are
    allocated and nothing once they are freed; initialising allocates empty
    resources; deserialising needs allocated resources and a well-formed
    text, which it then holds; serialising gives the description held. *)
Record t : Type := Store { resources : option string }.

Definition serialize_store (d : t) : string :=
  match resources d with
  | Some description => description
  | None => ""
  end.

Definition deserialize_store (_ : string) (d : t) (state : string) : t * option exn :=
  match resources d with
  | None => (d, Some (Exn ArgonError "visualisation contents are not initialised"))
  | Some _ =>
      if TextDocument.malformed state
      then (d, Some (Exn ArgonError "malformed document"))
      else (Store (Some state), None)
  end.

#[export] Instance ops : ArgonDocumentOps t :=
  {| ArgonDocument := Store None;
     initialiseVisualisationContents := fun _ => Store (Some "");
     freeVisualisationContents := fun _ => Store None;
     serialize := serialize_store;
     deserialize := deserialize_store;
     get_view_parameters := fun _ => TextDocument.view |}.


End DocumentStore.

(** ** What a complete run of the rendering block emits *)

Definition thumbnail_format : FboFormat :=
  {| fmt_attachment := CombinedDepthStencil; fmt_samples := 4 |}.

(** Lines 110-121: context, framebuffer object, scene viewer. *)
Definition setup_events : list Event :=
  [EvMakeCurrent; EvFboNew 512 512 thumbnail_format; EvFboBind;
   EvCreateSceneviewer BUFFERING_MODE_DOUBLE STEREO_MODE_DEFAULT;
   EvSetViewportSize 512 512].

(** Lines 126-138: camera, render, read back, save, release. *)
Definition draw_events (path : string) (v : ViewParameters) : list Event :=
  [EvSetLookatParametersNonSkew (eyePosition v) (lookAtPosition v) (upVector v);
   EvSetFarClippingPlane (farClippingPlane v);
   EvSetNearClippingPlane (nearClippingPlane v);
   EvSetViewAngle (viewAngle v);
   EvSetScene; EvRenderScene; EvToImage; EvImageSave path; EvFboRelease].

(** Lines 102-103 on the process state. *)
Definition ensure_qapp (w : World) : World :=
  if qapp_instance w then w else with_qapp w.

(** The state in which [export] calls [load] or [export_thumbnail]: the
    output target overridden if one was passed, the document replaced. *)
Definition retarget {Doc : Type} (output_target : option string)
    (s : ArgonSceneExporter Doc) : ArgonSceneExporter Doc :=
  match output_target with
  | Some t => with_output_target t s
  | None => s
  end.

Definition export_state {Doc : Type} (output_target : option string) (d : Doc)
    (st : State Doc) : State Doc :=
  {| self := with_document (Some d) (retarget output_target (self st));
     world := world st |}.

(** The [except ImportError] clause on an outcome. *)
Definition reraise_import (r : outcome unit) : outcome unit :=
  match r with
  | Return a => Return a
  | Raise e =>
      if is_ImportError e then
        Raise (Exn OpenCMISSExportThumbnailError
                 "Thumbnail export not supported without optional requirement PySide2")
      else Raise e
  end.

Definition not_installed : exn :=
  Exn OpenCMISSExportThumbnailError
    "Thumbnail export not supported without optional requirement PySide2".

Definition time_varying_error : exn :=
  Exn NotImplementedError "Time varying image export is not implemented.".

(** The steps of the rendering block that come before the time check. *)
Definition before_time_check (s : Step) : bool :=
  match s with
  | StMakeCurrent | StFboFormat | StFboNew | StFboBind | StGetZincContext
  | StGetSceneviewermodule | StCreateSceneviewer | StSetViewportSize => true
  | _ => false
  end.

(** ** Vocabulary for the behaviour of [load] and of the output path *)

(** ['/' in s] *)
Fixpoint has_sep (s : string) : bool :=
  match s with
  | EmptyString => false
  | String c s' => Ascii.eqb c OsPath.sep || has_sep s'
  end.

(** The [FileNotFoundError] of [os.chdir(path)]. *)
Definition chdir_error (path : string) : exn :=
  Exn IOError ("[Errno 2] No such file or directory: '" ++ path ++ "'").

(** The two [except] clauses of [load] (lines 59-64) applied to an exception
    raised in the [try] body: log and return [False], or let it through. *)
Definition load_except {Doc : Type} (filename : string) (e : exn) : M Doc bool :=
  fun st =>
    match load_handler filename e with
    | Some h => h st
    | None => (st, Raise e)
    end.

(** The state [load] is in after its [os.chdir(path)] and the
    deserialisation: document replaced, process in directory [dir]. *)
Definition loading_state {Doc : Type} (d : Doc) (dir : string) (st : State Doc)
    : State Doc :=
  {| self := with_document (Some d) (self st); world := with_cwd dir (world st) |}.

(** What a complete call of [export_thumbnail] emits, given whether a Qt
    application already exists. *)
Definition thumbnail_events (instance : bool) (path : string) (v : ViewParameters)
    : list Event :=
  (if instance then [] else [EvQGuiApplication])
  ++ [EvOffscreenSurfaceCreate; EvContextCreate]
  ++ setup_events ++ draw_events path v.

Module Scenarios.

Import TextDocument.

(** A file system in which [heart.argon] sits in the working directory. *)
Definition local_files (here filename : string) : outcome string :=
  if String.eqb filename "heart.argon" then Return "{heart}"
  else files here filename.

Definition local : Env :=
  {| PySide2_importable := true; zinc_importable := true;
     off_screen_isValid := true; context_create := true;
     raises := fun _ => None;
     open_read := local_files; resolve_dir := dirs |}.

(** PySide2 is installed, opencmiss.zinc is not. *)
Definition no_zinc : Env :=
  {| PySide2_importable := true; zinc_importable := false;
     off_screen_isValid := true; context_create := true;
     raises := fun _ => None;
     open_read := files; resolve_dir := dirs |}.

(** A library call of the rendering block fails on a missing module. *)
Definition late_import : Env :=
  {| PySide2_importable := true; zinc_importable := true;
     off_screen_isValid := true; context_create := true;
     raises := fun s => match s with
                        | StCreateSceneviewer =>
                            Some (Exn ImportError "No module named 'OpenGL'")
                        | _ => None
                        end;
     open_read := files; resolve_dir := dirs |}.

(** Only the start of a time range is given. *)
Definition one_sided : ArgonSceneExporter string :=
  {| _output_target := "."; _prefix := "heart";
     _document := Some "{heart}"; _filename := None;
     _initialTime := Some 0%Q; _finishTime := None;
     _numberOfTimeSteps := 10 |}.

(** The prefix is an absolute path. *)
Definition absolute_prefix : ArgonSceneExporter string :=
  {| _output_target := "out"; _prefix := "/tmp/heart";
     _document := Some "{heart}"; _filename := None;
     _initialTime := None; _finishTime := None;
     _numberOfTimeSteps := 10 |}.

End Scenarios.

(** * Properties *)

Ltac unfold_m :=
  unfold call, check, emit, document_attr, gets, modify_world, modify_self,
    set_document, import, getcwd, logger_error, bind, ret, raise in *.

Ltac step_oracle :=
  match goal with
  | |- context [raises ?e ?s] =>
      let E := fresh "E" in destruct (raises e s) eqn:E; cbn
  end.

(** Pick the length of the emitted prefix. *)
Ltac pick_prefix k :=
  first [ exists 0%nat; k | exists 1%nat; k | exists 2%nat; k | exists 3%nat; k
        | exists 4%nat; k | exists 5%nat; k | exists 6%nat; k | exists 7%nat; k
        | exists 8%nat; k ].

Section Facts.

Context {Doc : Type} `{DocOps : ArgonDocumentOps Doc}.

Implicit Types (env : Env) (st : State Doc) (s : ArgonSceneExporter Doc).

(** *** Traces *)

Lemma emitted_app st st' (delta : list Event) :
  trace (world st') = (trace (world st) ++ delta)%list ->
  emitted st st' = delta.
Proof.
  unfold emitted. intros ->.
  induction (trace (world st)) as [|ev t IH]; [reflexivity | exact IH].
Qed.

Lemma emitted_refl st : emitted st st = [].
Proof. apply emitted_app. now rewrite app_nil_r. Qed.

Lemma In_firstn (A : Type) (n : nat) (l : list A) (x : A) :
  In x (firstn n l) -> In x l.
Proof.
  revert l; induction n as [|n IH]; intros [|y l]; cbn; try tauto.
  intros [->|H]; [now left | right; now apply IH].
Qed.

Lemma release_not_in_setup (n : nat) : ~ In EvFboRelease (firstn n setup_events).
Proof.
  intros H. apply In_firstn in H. cbn in H.
  repeat (destruct H as [H|H]; [discriminate H|]). exact H.
Qed.

Lemma save_not_in_setup (n : nat) (path : string) :
  ~ In (EvImageSave path) (firstn n setup_events).
Proof.
  intros H. apply In_firstn in H. cbn in H.
  repeat (destruct H as [H|H]; [discriminate H|]). exact H.
Qed.

Lemma release_not_in_draw (n : nat) (path : string) (v : ViewParameters) :
  (n < 9)%nat -> ~ In EvFboRelease (firstn n (draw_events path v)).
Proof.
  intros Hn H.
  do 9 (destruct n as [|n];
        [cbn in H; repeat (destruct H as [H|H]; [discriminate H|]); exact H|]).
  lia.
Qed.

(** *** The rendering block *)

(** The block touches nothing but the trace; what it appends is a prefix
    of [setup_events ++ draw_events], complete exactly when it returns. *)
Lemma render_block_events env st :
  let r := render_block env st in
  self (fst r) = self st /\
  cwd (world (fst r)) = cwd (world st) /\
  log (world (fst r)) = log (world st) /\
  qapp_instance (world (fst r)) = qapp_instance (world st) /\
  qapp_created (world (fst r)) = qapp_created (world st) /\
  exists delta,
    trace (world (fst r)) = (trace (world st) ++ delta)%list /\
    match snd r with
    | Return _ =>
        exists d, _document (self st) = Some d /\
          time_varying (self st) = false /\
          delta = (setup_events
                   ++ draw_events (thumbnail_path (self st)) (get_view_parameters d))%list
    | Raise e =>
        (exists n, delta = firstn n setup_events) \/
        (exists d n, _document (self st) = Some d /\
           time_varying (self st) = false /\ (n < 9)%nat /\
           delta = (setup_events
                    ++ firstn n (draw_events (thumbnail_path (self st))
                                   (get_view_parameters d)))%list)
    end.
Proof.
  destruct st as [[ot pf [d|] fn t0 t1 n] w];
    unfold render_block, time_varying, thumbnail_path; unfold_m; cbn.
  - repeat step_oracle; try destruct t0; try destruct t1; cbn; repeat step_oracle;
      repeat (split; [reflexivity|]);
      rewrite <- ?app_assoc; cbn;
      (eexists; split; [first [reflexivity | symmetry; apply app_nil_r]|]);
      first [ exists d; repeat split; reflexivity
            | left; pick_prefix ltac:(reflexivity)
            | right; exists d;
              pick_prefix ltac:(repeat split; first [reflexivity | lia]) ].
  - repeat step_oracle;
      repeat (split; [reflexivity|]);
      rewrite <- ?app_assoc; cbn;
      (eexists; split; [first [reflexivity | symmetry; apply app_nil_r]|]);
      left; pick_prefix ltac:(reflexivity).
Qed.

(** *** [export_thumbnail], branch by branch *)

Lemma export_thumbnail_unfold env st :
  export_thumbnail env st =
    if PySide2_importable env && zinc_importable env then
      let st1 := {| self := self st;
                    world := with_event EvOffscreenSurfaceCreate
                               (ensure_qapp (world st)) |} in
      if off_screen_isValid env then
        let st2 := {| self := self st;
                      world := with_event EvContextCreate (world st1) |} in
        if context_create env then
          (fst (render_block env st2), reraise_import (snd (render_block env st2)))
        else (st2, Return tt)
      else (st1, Return tt)
    else (st, Raise not_installed).
Proof.
  unfold export_thumbnail, try_except, export_thumbnail_body, ensure_qapp.
  unfold_m.
  destruct (PySide2_importable env), (zinc_importable env); cbn; try reflexivity.
  destruct (qapp_instance (world st)) eqn:Hq; cbn;
    destruct (off_screen_isValid env); cbn; try reflexivity;
    destruct (context_create env); cbn; try reflexivity.
  - destruct st as [s w]; cbn in *.
    destruct (render_block env _) as [st3 [[]|e]]; cbn; try reflexivity.
    destruct (is_ImportError e); reflexivity.
  - destruct (render_block env _) as [st3 [[]|e]]; cbn; try reflexivity.
    destruct (is_ImportError e); reflexivity.
Qed.

(** The exporter object, the working directory and the log are not
    touched by [export_thumbnail]. *)
Lemma export_thumbnail_frame env st :
  let r := export_thumbnail env st in
  self (fst r) = self st /\
  cwd (world (fst r)) = cwd (world st) /\
  log (world (fst r)) = log (world st).
Proof.
  cbv zeta. rewrite export_thumbnail_unfold.
  destruct (PySide2_importable env && zinc_importable env); [|now repeat split].
  assert (Hq : cwd (ensure_qapp (world st)) = cwd (world st)
               /\ log (ensure_qapp (world st)) = log (world st))
    by (unfold ensure_qapp; destruct (qapp_instance (world st)); now split).
  destruct Hq as [Hc Hl]. cbv zeta.
  destruct (off_screen_isValid env); [|now repeat split].
  destruct (context_create env); [|now repeat split].
  match goal with |- context [render_block env ?st2] =>
    destruct (render_block_events env st2) as (Hs & Hc' & Hl' & _) end.
  cbn [fst snd] in *. rewrite Hs, Hc', Hl'. now repeat split.
Qed.

(** The Qt application after a call: created if and only if the toolkit
    imports and no instance existed. *)
Lemma export_thumbnail_qapp env st :
  let w' := world (fst (export_thumbnail env st)) in
  if PySide2_importable env && zinc_importable env then
    qapp_instance w' = true /\
    qapp_created w' = (if qapp_instance (world st) then qapp_created (world st)
                       else S (qapp_created (world st)))
  else
    qapp_instance w' = qapp_instance (world st) /\
    qapp_created w' = qapp_created (world st).
Proof.
  cbv zeta. rewrite export_thumbnail_unfold.
  destruct (PySide2_importable env && zinc_importable env); [|now split].
  assert (Hq : qapp_instance (ensure_qapp (world st)) = true
               /\ qapp_created (ensure_qapp (world st))
                  = (if qapp_instance (world st) then qapp_created (world st)
                     else S (qapp_created (world st))))
    by (unfold ensure_qapp; destruct (qapp_instance (world st)) eqn:E; now split).
  destruct Hq as [Hi Hn]. cbv zeta.
  destruct (off_screen_isValid env); [|now split].
  destruct (context_create env); [|now split].
  match goal with |- context [render_block env ?st2] =>
    destruct (render_block_events env st2) as (_ & _ & _ & Hi' & Hn' & _) end.
  cbn [fst snd] in *. rewrite Hi', Hn'. now split.
Qed.

(** What one call adds to the trace. *)
Lemma export_thumbnail_emitted env st :
  let r := export_thumbnail env st in
  let app := if qapp_instance (world st) then [] else [EvQGuiApplication] in
  if PySide2_importable env && zinc_importable env then
    if off_screen_isValid env then
      if context_create env then
        exists delta,
          emitted st (fst r)
          = (app ++ [EvOffscreenSurfaceCreate; EvContextCreate] ++ delta)%list /\
          match snd r with
          | Return _ =>
              exists d, _document (self st) = Some d /\
                time_varying (self st) = false /\
                delta = (setup_events
                         ++ draw_events (thumbnail_path (self st))
                              (get_view_parameters d))%list
          | Raise e =>
              (exists n, delta = firstn n setup_events) \/
              (exists d n, _document (self st) = Some d /\
                 time_varying (self st) = false /\ (n < 9)%nat /\
                 delta = (setup_events
                          ++ firstn n (draw_events (thumbnail_path (self st))
                                         (get_view_parameters d)))%list)
          end
      else emitted st (fst r) = (app ++ [EvOffscreenSurfaceCreate; EvContextCreate])%list
           /\ snd r = Return tt
    else emitted st (fst r) = (app ++ [EvOffscreenSurfaceCreate])%list
         /\ snd r = Return tt
  else emitted st (fst r) = [] /\ snd r = Raise not_installed.
Proof.
  cbv zeta. rewrite export_thumbnail_unfold.
  destruct (PySide2_importable env && zinc_importable env);
    [|split; [apply emitted_refl | reflexivity]].
  assert (Ht : trace (ensure_qapp (world st))
               = (trace (world st)
                  ++ (if qapp_instance (world st) then [] else [EvQGuiApplication]))%list)
    by (unfold ensure_qapp; destruct (qapp_instance (world st));
        [now rewrite app_nil_r | reflexivity]).
  cbv zeta.
  destruct (off_screen_isValid env);
    [|split; [apply emitted_app; cbn; rewrite Ht; now rewrite <- app_assoc | reflexivity]].
  destruct (context_create env);
    [|split; [apply emitted_app; cbn; rewrite Ht; now rewrite <- !app_assoc
             | reflexivity]].
  match goal with |- context [render_block env ?st2] =>
    destruct (render_block_events env st2)
      as (_ & _ & _ & _ & _ & delta & Hd & Hr) end.
  cbn [fst snd] in *. exists delta. split.
  - apply emitted_app. rewrite Hd. cbn. rewrite Ht. now rewrite <- !app_assoc.
  - destruct (snd (render_block env _)) as [[]|e]; cbn.
    + exact Hr.
    + destruct (is_ImportError e); exact Hr.
Qed.

(** On every path on which [export_thumbnail] raises, the framebuffer
    object has not been released. *)
Lemma raise_means_not_released env st (e : exn) :
  snd (export_thumbnail env st) = Raise e ->
  ~ In EvFboRelease (emitted st (fst (export_thumbnail env st))).
Proof.
  intros Hr Hin.
  pose proof (export_thumbnail_emitted env st) as H. cbv zeta in H.
  destruct (PySide2_importable env && zinc_importable env).
  2:{ destruct H as [H _]. rewrite H in Hin. exact Hin. }
  destruct (off_screen_isValid env).
  2:{ destruct H as [_ H]. rewrite H in Hr. discriminate. }
  destruct (context_create env).
  2:{ destruct H as [_ H]. rewrite H in Hr. discriminate. }
  destruct H as (delta & He & Hd). rewrite Hr in Hd. rewrite He in Hin.
  apply in_app_or in Hin. destruct Hin as [Hin|Hin].
  { destruct (qapp_instance (world st)); cbn in Hin; [tauto|].
    destruct Hin as [Hin|[]]; discriminate. }
  cbn in Hin. destruct Hin as [Hin|[Hin|Hin]]; try discriminate.
  destruct Hd as [(n & ->)|(d & n & _ & _ & Hn & ->)].
  - exact (release_not_in_setup _ Hin).
  - apply in_app_or in Hin. destruct Hin as [Hin|Hin].
    + exact (release_not_in_setup 5 Hin).
    + exact (release_not_in_draw _ _ Hn Hin).
Qed.

(** *** The time-varying guard *)

(** C1 (as amended): with both [_initialTime] and [_finishTime] set, no
    call of [export_thumbnail] saves an image; the call raises
    [NotImplementedError('Time varying image export is not implemented.')]
    when the toolkit imports, the off-screen surface is valid, the context
    is created, a document is set and none of the library calls before the
    check raises. *)
Theorem C1_time_varying_guard env st (t0 t1 : Q) :
  _initialTime (self st) = Some t0 ->
  _finishTime (self st) = Some t1 ->
  (forall path,
      ~ In (EvImageSave path) (emitted st (fst (export_thumbnail env st)))) /\
  (PySide2_importable env = true -> zinc_importable env = true ->
   off_screen_isValid env = true -> context_create env = true ->
   _document (self st) <> None ->
   (forall step, before_time_check step = true -> raises env step = None) ->
   snd (export_thumbnail env st) = Raise time_varying_error).
Proof.
  intros H0 H1.
  assert (Htv : time_varying (self st) = true)
    by (unfold time_varying; now rewrite H0, H1).
  split.
  - intros path Hin.
    pose proof (export_thumbnail_emitted env st) as H. cbv zeta in H.
    destruct (PySide2_importable env && zinc_importable env).
    2:{ destruct H as [H _]. rewrite H in Hin. exact Hin. }
    assert (Happ : ~ In (EvImageSave path)
                     (if qapp_instance (world st) then [] else [EvQGuiApplication]))
      by (destruct (qapp_instance (world st)); cbn; [tauto|intros [?|[]]; discriminate]).
    destruct (off_screen_isValid env).
    2:{ destruct H as [H _]. rewrite H in Hin. apply in_app_or in Hin.
        destruct Hin as [Hin|[Hin|[]]]; [tauto|discriminate]. }
    destruct (context_create env).
    2:{ destruct H as [H _]. rewrite H in Hin. apply in_app_or in Hin.
        destruct Hin as [Hin|[Hin|[Hin|[]]]]; [tauto|discriminate|discriminate]. }
    destruct H as (delta & He & Hd). rewrite He in Hin.
    apply in_app_or in Hin. destruct Hin as [Hin|Hin]; [tauto|].
    cbn in Hin. destruct Hin as [Hin|[Hin|Hin]]; try discriminate.
    destruct (snd (export_thumbnail env st)).
    + destruct Hd as (d & _ & Hf & _). congruence.
    + destruct Hd as [(n & ->)|(d & n & _ & Hf & _)]; [|congruence].
      exact (save_not_in_setup _ _ Hin).
  - intros Hp Hz Hv Hc Hdoc Hsteps.
    rewrite export_thumbnail_unfold, Hp, Hz, Hv, Hc. cbn.
    destruct st as [[ot pf [d|] fn i f n] w]; cbn in *; [|congruence].
    subst i f.
    unfold render_block, time_varying. unfold_m. cbn.
    rewrite !Hsteps by reflexivity. reflexivity.
Qed.

(** *** Surface and context *)

(** C5 (as amended): with the toolkit importable, a call that finds the
    off-screen surface invalid, or cannot create the context, returns
    normally: it raises nothing, leaves the exporter as it was, and has
    created no framebuffer object and saved no image. *)
Theorem C5_no_surface_or_context env st :
  PySide2_importable env = true -> zinc_importable env = true ->
  off_screen_isValid env = false \/ context_create env = false ->
  snd (export_thumbnail env st) = Return tt /\
  self (fst (export_thumbnail env st)) = self st /\
  (forall ev, In ev (emitted st (fst (export_thumbnail env st))) ->
     ev = EvQGuiApplication \/ ev = EvOffscreenSurfaceCreate \/ ev = EvContextCreate).
Proof.
  intros Hp Hz Hsc.
  pose proof (export_thumbnail_emitted env st) as H. cbv zeta in H.
  rewrite Hp, Hz in H. cbn in H.
  split; [|split].
  - destruct (off_screen_isValid env); [|tauto].
    destruct (context_create env); [|tauto]. destruct Hsc; discriminate.
  - apply export_thumbnail_frame.
  - intros ev Hin.
    assert (Happ : In ev (if qapp_instance (world st) then [] else [EvQGuiApplication])
                   -> ev = EvQGuiApplication)
      by (destruct (qapp_instance (world st)); cbn; [tauto|intros [?|[]]; congruence]).
    destruct (off_screen_isValid env).
    + destruct (context_create env); [destruct Hsc; discriminate|].
      destruct H as [H _]. rewrite H in Hin. apply in_app_or in Hin.
      destruct Hin as [Hin|[Hin|[Hin|[]]]]; auto.
    + destruct H as [H _]. rewrite H in Hin. apply in_app_or in Hin.
      destruct Hin as [Hin|[Hin|[]]]; auto.
Qed.

(** *** The optional toolkit *)

(** C6: when PySide2 cannot be imported, [export_thumbnail] raises
    [OpenCMISSExportThumbnailError] (the [ImportError] is caught and
    replaced) and has done nothing else. *)
Theorem C6_missing_toolkit env st :
  PySide2_importable env = false ->
  export_thumbnail env st
  = (st, Raise (Exn OpenCMISSExportThumbnailError
       "Thumbnail export not supported without optional requirement PySide2")).
Proof.
  intros Hp. rewrite export_thumbnail_unfold, Hp. reflexivity.
Qed.

(** *** The output *)

Lemma join_plain (a b : string) :
  OsPath.is_empty a = false -> OsPath.endswith_sep a = false ->
  OsPath.startswith_sep b = false ->
  OsPath.join a b = a ++ "/" ++ b.
Proof. unfold OsPath.join. now intros -> -> ->. Qed.

Lemma startswith_sep_app (p q : string) :
  OsPath.startswith_sep p = false -> OsPath.startswith_sep q = false ->
  OsPath.startswith_sep (p ++ q) = false.
Proof. destruct p; cbn; auto. Qed.

(** C7: a call of [export_thumbnail] that obtained a surface and a context
    and returned normally has created one 512 x 512 framebuffer object with
    a combined depth-stencil attachment and 4 samples, set the viewport to
    512 x 512, and saved exactly one image, to
    [os.path.join(_output_target, _prefix + '_thumbnail.jpeg')], before
    releasing the framebuffer object; that path is
    [_output_target/_prefix_thumbnail.jpeg] for a plain directory and
    prefix, and [_output_target] is ['.'] when the constructor was given
    none. *)
Theorem C7_thumbnail_output env st st' :
  export_thumbnail env st = (st', Return tt) ->
  off_screen_isValid env = true -> context_create env = true ->
  (exists d, _document (self st) = Some d /\
     emitted st st'
     = ((if qapp_instance (world st) then [] else [EvQGuiApplication])
        ++ [EvOffscreenSurfaceCreate; EvContextCreate; EvMakeCurrent;
            EvFboNew 512 512
              {| fmt_attachment := CombinedDepthStencil; fmt_samples := 4 |};
            EvFboBind;
            EvCreateSceneviewer BUFFERING_MODE_DOUBLE STEREO_MODE_DEFAULT;
            EvSetViewportSize 512 512;
            EvSetLookatParametersNonSkew (eyePosition (get_view_parameters d))
              (lookAtPosition (get_view_parameters d))
              (upVector (get_view_parameters d));
            EvSetFarClippingPlane (farClippingPlane (get_view_parameters d));
            EvSetNearClippingPlane (nearClippingPlane (get_view_parameters d));
            EvSetViewAngle (viewAngle (get_view_parameters d));
            EvSetScene; EvRenderScene; EvToImage;
            EvImageSave (OsPath.join (_output_target (self st))
                           (_prefix (self st) ++ "_thumbnail.jpeg"));
            EvFboRelease])%list) /\
  (OsPath.is_empty (_output_target (self st)) = false ->
   OsPath.endswith_sep (_output_target (self st)) = false ->
   OsPath.startswith_sep (_prefix (self st)) = false ->
   OsPath.join (_output_target (self st)) (_prefix (self st) ++ "_thumbnail.jpeg")
   = _output_target (self st) ++ "/" ++ _prefix (self st) ++ "_thumbnail.jpeg") /\
  (forall output_prefix, _output_target (init (Doc := Doc) None output_prefix) = ".").
Proof.
  intros Hrun Hv Hc. split; [|split].
  - pose proof (export_thumbnail_emitted env st) as H. cbv zeta in H.
    rewrite Hrun, Hv, Hc in H. cbn [fst snd] in H.
    destruct (PySide2_importable env && zinc_importable env);
      [|destruct H; discriminate].
    destruct H as (delta & He & d & Hd & _ & ->).
    exists d. split; [exact Hd|]. rewrite He. reflexivity.
  - intros He Hs Hp. apply join_plain; auto.
    now apply startswith_sep_app.
  - reflexivity.
Qed.

(** *** [load] *)

(** C9: [load(None)] returns [False] and leaves the whole state - the
    exporter's document and filename, the log, the working directory -
    exactly as it was. *)
Theorem C9_load_none env st :
  load env None st = (st, Return false).
Proof. reflexivity. Qed.

(** [load] never touches the Qt application nor the graphics trace. *)
Lemma load_frame env (filename : option string) st :
  let st' := fst (load env filename st) in
  qapp_instance (world st') = qapp_instance (world st) /\
  qapp_created (world st') = qapp_created (world st) /\
  trace (world st') = trace (world st).
Proof.
  destruct filename as [f|]; [|now repeat split].
  destruct st as [s w].
  unfold load, try_except, load_handler, read_text, chdir,
    document_initialiseVisualisationContents, document_deserialize.
  unfold_m. cbn.
  destruct (open_read env (cwd w) f) as [state|e]; cbn.
  2:{ destruct (is_load_error e); [now repeat split|].
      destruct (is_Exception e); now repeat split. }
  destruct (OsPath.is_empty (OsPath.dirname f)); cbn; [now repeat split|].
  destruct (resolve_dir env (cwd w) (OsPath.dirname f)) as [dir|]; cbn;
    [|now repeat split].
  destruct (deserialize dir _ state) as [doc' [e|]]; cbn.
  { destruct (is_load_error e); [now repeat split|].
    destruct (is_Exception e); now repeat split. }
  destruct (OsPath.is_empty (cwd w)); cbn; [now repeat split|].
  destruct (resolve_dir env dir (cwd w)); cbn; now repeat split.
Qed.

(** *** [export] *)

Lemma export_unfold_none env (output_target : option string) st :
  _document (self st) = None ->
  export env output_target st =
    match load env (_filename (self st))
            (export_state output_target
               (initialiseVisualisationContents ArgonDocument) st) with
    | (st2, Return _) => export_thumbnail env st2
    | (st2, Raise e) => (st2, Raise e)
    end.
Proof.
  intros Hd. destruct st as [s w]; cbn in *.
  unfold export, export_state, retarget, document_initialiseVisualisationContents.
  unfold_m.
  unfold with_document, with_output_target.
  destruct output_target as [t|]; cbn -[load export_thumbnail]; rewrite Hd;
    cbn -[load export_thumbnail];
    match goal with
    | |- context [load env ?f ?x] => destruct (load env f x) as [st2 [b|e]]
    end;
    reflexivity.
Qed.

Lemma export_unfold_some env (output_target : option string) st (d : Doc) :
  _document (self st) = Some d ->
  export env output_target st =
    match deserialize (cwd (world st))
            (initialiseVisualisationContents (freeVisualisationContents d))
            (serialize d) with
    | (d', None) => export_thumbnail env (export_state output_target d' st)
    | (d', Some e) => (export_state output_target d' st, Raise e)
    end.
Proof.
  intros Hd. destruct st as [[ot pf doc fn t0 t1 n] w]; cbn in Hd; subst doc.
  unfold export, export_state, retarget, document_initialiseVisualisationContents,
    document_freeVisualisationContents, document_serialize, document_deserialize.
  unfold_m. unfold modify_self.
  destruct output_target as [t|]; cbn -[export_thumbnail];
    destruct (deserialize (cwd w) _ (serialize d)) as [d' [e|]]; reflexivity.
Qed.

(** C4 (as amended): when [export] has to load the document from file and
    [load] fails (returns [False]), [export] does not abort: the failure
    has only been logged by [load], and [export] goes on to run
    [export_thumbnail] in the state the failed load left. *)
Theorem C4_export_continues_after_failed_load env (output_target : option string)
    st st2 :
  _document (self st) = None ->
  load env (_filename (self st))
    (export_state output_target (initialiseVisualisationContents ArgonDocument) st)
  = (st2, Return false) ->
  export env output_target st = export_thumbnail env st2.
Proof.
  intros Hd Hl. rewrite (export_unfold_none env output_target st Hd), Hl.
  reflexivity.
Qed.

(** *** The Qt application singleton *)

Lemma ensure_consistent env st :
  qapp_consistent (world st) ->
  qapp_consistent (world (fst (export_thumbnail env st))).
Proof.
  unfold qapp_consistent. intros [Hle Hnone].
  pose proof (export_thumbnail_qapp env st) as H. cbv zeta in H.
  destruct (PySide2_importable env && zinc_importable env);
    destruct H as [Hi Hn]; rewrite Hi, Hn.
  - destruct (qapp_instance (world st)).
    + split; [exact Hle | discriminate].
    + rewrite Hnone by reflexivity. split; [lia | discriminate].
  - split; assumption.
Qed.

Lemma run_call_consistent (c : Env * MethodCall Doc) st :
  qapp_consistent (world st) -> qapp_consistent (world (run_call c st)).
Proof.
  intros H. destruct c as [env [d|f|n t0 t1 p|f|t|]]; cbn; try exact H.
  - unfold qapp_consistent in *.
    destruct (load_frame env f st) as (Hi & Hn & _). now rewrite Hi, Hn.
  - destruct (_document (self st)) as [d|] eqn:Hd.
    + rewrite (export_unfold_some env t st Hd).
      destruct (deserialize _ _ _) as [d' [e|]]; [exact H|].
      now apply ensure_consistent.
    + rewrite (export_unfold_none env t st Hd).
      match goal with |- context [load env ?f ?x] =>
        pose proof (load_frame env f x) as Hl; cbv zeta in Hl;
        destruct (load env f x) as [st2 [b|e]] end;
        destruct Hl as (Hi & Hn & _); cbn in Hi, Hn.
      * apply ensure_consistent. unfold qapp_consistent. now rewrite Hi, Hn.
      * cbn. unfold qapp_consistent. now rewrite Hi, Hn.
  - now apply ensure_consistent.
Qed.

Lemma run_calls_consistent (cs : list (Env * MethodCall Doc)) st :
  qapp_consistent (world st) -> qapp_consistent (world (run_calls cs st)).
Proof.
  revert st. induction cs as [|c cs IH]; intros st H; [exact H|].
  cbn. apply IH. now apply run_call_consistent.
Qed.

(** C8: every [export_thumbnail] call looks for an existing
    [QGuiApplication] and constructs one only if there is none, so a call
    made while an instance exists constructs nothing; and in a process,
    whatever methods are called, in whatever environments and however
    often, at most one [QGuiApplication] is ever constructed. *)
Theorem C8_single_qapp :
  (forall env st,
      qapp_created (world (fst (export_thumbnail env st)))
      = if PySide2_importable env && zinc_importable env
           && negb (qapp_instance (world st))
        then S (qapp_created (world st))
        else qapp_created (world st)) /\
  (forall (cs : list (Env * MethodCall Doc)) (dir : string) s,
      (qapp_created (world (run_calls cs (fresh_state dir s))) <= 1)%nat).
Proof.
  split.
  - intros env st. pose proof (export_thumbnail_qapp env st) as H. cbv zeta in H.
    destruct (PySide2_importable env && zinc_importable env);
      destruct H as [_ Hn]; rewrite Hn; [|reflexivity].
    destruct (qapp_instance (world st)); reflexivity.
  - intros cs dir s.
    apply (run_calls_consistent cs (fresh_state dir s)).
    split; [cbn; lia | reflexivity].
Qed.

End Facts.

(** * The methods run on concrete inputs *)

Section Runs.

Import TextDocument.

(** C1, counterexample: both times are set, there is no display, and the
    call returns normally instead of raising. *)
Lemma C1_counterexample :
  _initialTime timed = Some 0%Q /\ _finishTime timed = Some 1%Q /\
  snd (export_thumbnail no_display (fresh_state "/home/user" timed)) = Return tt.
Proof. repeat split. Qed.

Lemma C1_time_varying_guard_witness :
  _initialTime (self (fresh_state "/home/user" timed)) = Some 0%Q /\
  _finishTime (self (fresh_state "/home/user" timed)) = Some 1%Q /\
  (forall path,
      ~ In (EvImageSave path)
          (emitted (fresh_state "/home/user" timed)
             (fst (export_thumbnail desktop (fresh_state "/home/user" timed))))) /\
  snd (export_thumbnail desktop (fresh_state "/home/user" timed))
  = Raise time_varying_error.
Proof.
  split; [reflexivity|]. split; [reflexivity|].
  destruct (@C1_time_varying_guard string ops desktop (fresh_state "/home/user" timed)
              0%Q 1%Q eq_refl eq_refl) as [Hsave Hraise].
  split; [exact Hsave|].
  apply Hraise;
    [reflexivity | reflexivity | reflexivity | reflexivity | discriminate
    | intros step _; reflexivity].
Defined.

(** C2: loading a malformed file from another directory returns [False]
    and leaves the process in the file's directory. *)
Theorem C2_load_leaves_directory_changed :
  cwd (world (fresh_state "/home/user" exporter)) = "/home/user" /\
  snd (load desktop (Some "/data/bad.argon") (fresh_state "/home/user" exporter))
  = Return false /\
  cwd (world (fst (load desktop (Some "/data/bad.argon")
                     (fresh_state "/home/user" exporter)))) = "/data".
Proof. repeat split. Qed.

(** C3: the time-varying rejection, and a render error, leave
    [export_thumbnail] with the framebuffer object created and bound but
    not released. *)
Theorem C3_framebuffer_not_released_on_error :
  (snd (export_thumbnail desktop (fresh_state "/home/user" timed))
   = Raise time_varying_error /\
   In EvFboBind
      (emitted (fresh_state "/home/user" timed)
         (fst (export_thumbnail desktop (fresh_state "/home/user" timed)))) /\
   ~ In EvFboRelease
       (emitted (fresh_state "/home/user" timed)
          (fst (export_thumbnail desktop (fresh_state "/home/user" timed))))) /\
  (snd (export_thumbnail render_fails (fresh_state "/home/user" loaded))
   = Raise (Exn RuntimeError "render failed") /\
   In EvFboBind
      (emitted (fresh_state "/home/user" loaded)
         (fst (export_thumbnail render_fails (fresh_state "/home/user" loaded)))) /\
   ~ In EvFboRelease
       (emitted (fresh_state "/home/user" loaded)
          (fst (export_thumbnail render_fails (fresh_state "/home/user" loaded))))).
Proof.
  split; (split; [reflexivity|]); (split; [cbn; tauto|]).
  - exact (raise_means_not_released desktop (fresh_state "/home/user" timed) eq_refl).
  - exact (raise_means_not_released render_fails (fresh_state "/home/user" loaded)
             eq_refl).
Qed.

(** C4, counterexample: the file to load does not exist, [load] returns
    [False], and [export] renders the scene and saves an image all the
    same. *)
Lemma C4_counterexample :
  _document (self (fresh_state "/home/user" (from_file "/data/missing.argon"))) = None /\
  snd (load desktop (Some "/data/missing.argon")
         (export_state None "" (fresh_state "/home/user" (from_file "/data/missing.argon"))))
  = Return false /\
  snd (export desktop None (fresh_state "/home/user" (from_file "/data/missing.argon")))
  = Return tt /\
  In EvRenderScene
     (emitted (fresh_state "/home/user" (from_file "/data/missing.argon"))
        (fst (export desktop None
                (fresh_state "/home/user" (from_file "/data/missing.argon"))))) /\
  In (EvImageSave "./ArgonSceneExporterThumbnail_thumbnail.jpeg")
     (emitted (fresh_state "/home/user" (from_file "/data/missing.argon"))
        (fst (export desktop None
                (fresh_state "/home/user" (from_file "/data/missing.argon"))))).
Proof.
  split; [reflexivity|]. split; [vm_compute; reflexivity|].
  split; [vm_compute; reflexivity|]. split; vm_compute; tauto.
Qed.

Lemma C4_export_continues_after_failed_load_witness :
  _document (self (fresh_state "/home/user" (from_file "/data/missing.argon"))) = None /\
  export desktop None (fresh_state "/home/user" (from_file "/data/missing.argon"))
  = export_thumbnail desktop
      (fst (load desktop (Some "/data/missing.argon")
              (export_state None ""
                 (fresh_state "/home/user" (from_file "/data/missing.argon"))))).
Proof.
  split; [reflexivity|].
  apply (@C4_export_continues_after_failed_load string ops desktop None
           (fresh_state "/home/user" (from_file "/data/missing.argon"))).
  - reflexivity.
  - reflexivity.
Defined.

(** C5, counterexample: without a valid surface, and without a context,
    the call returns as a successful one does, nothing raised and nothing
    written. *)
Lemma C5_counterexample :
  (PySide2_importable no_display = true /\ off_screen_isValid no_display = false /\
   export_thumbnail no_display (fresh_state "/home/user" loaded)
   = ({| self := loaded;
         world := {| cwd := "/home/user"; log := []; qapp_instance := true;
                     qapp_created := 1;
                     trace := [EvQGuiApplication; EvOffscreenSurfaceCreate] |} |},
      Return tt)) /\
  (PySide2_importable no_context = true /\ context_create no_context = false /\
   export_thumbnail no_context (fresh_state "/home/user" loaded)
   = ({| self := loaded;
         world := {| cwd := "/home/user"; log := []; qapp_instance := true;
                     qapp_created := 1;
                     trace := [EvQGuiApplication; EvOffscreenSurfaceCreate;
                               EvContextCreate] |} |},
      Return tt)).
Proof. repeat split. Qed.

Lemma C5_no_surface_or_context_witness :
  (off_screen_isValid no_display = false \/ context_create no_display = false) /\
  snd (export_thumbnail no_display (fresh_state "/home/user" loaded)) = Return tt /\
  self (fst (export_thumbnail no_display (fresh_state "/home/user" loaded))) = loaded /\
  (forall ev,
      In ev (emitted (fresh_state "/home/user" loaded)
               (fst (export_thumbnail no_display (fresh_state "/home/user" loaded)))) ->
      ev = EvQGuiApplication \/ ev = EvOffscreenSurfaceCreate \/ ev = EvContextCreate).
Proof.
  split; [left; reflexivity|].
  apply (@C5_no_surface_or_context string ops no_display
           (fresh_state "/home/user" loaded) eq_refl eq_refl).
  left; reflexivity.
Defined.

Lemma C6_missing_toolkit_witness :
  PySide2_importable no_pyside2 = false /\
  export_thumbnail no_pyside2 (fresh_state "/home/user" loaded)
  = (fresh_state "/home/user" loaded,
     Raise (Exn OpenCMISSExportThumbnailError
              "Thumbnail export not supported without optional requirement PySide2")).
Proof.
  split; [reflexivity|].
  apply (@C6_missing_toolkit string ops no_pyside2 (fresh_state "/home/user" loaded)).
  reflexivity.
Defined.

Lemma C7_thumbnail_output_witness :
  export_thumbnail desktop (fresh_state "/home/user" loaded)
  = (fst (export_thumbnail desktop (fresh_state "/home/user" loaded)), Return tt) /\
  (exists d, _document loaded = Some d /\
     emitted (fresh_state "/home/user" loaded)
       (fst (export_thumbnail desktop (fresh_state "/home/user" loaded)))
     = [EvQGuiApplication; EvOffscreenSurfaceCreate; EvContextCreate; EvMakeCurrent;
        EvFboNew 512 512
          {| fmt_attachment := CombinedDepthStencil; fmt_samples := 4 |};
        EvFboBind;
        EvCreateSceneviewer BUFFERING_MODE_DOUBLE STEREO_MODE_DEFAULT;
        EvSetViewportSize 512 512;
        EvSetLookatParametersNonSkew (eyePosition (get_view_parameters d))
          (lookAtPosition (get_view_parameters d))
          (upVector (get_view_parameters d));
        EvSetFarClippingPlane (farClippingPlane (get_view_parameters d));
        EvSetNearClippingPlane (nearClippingPlane (get_view_parameters d));
        EvSetViewAngle (viewAngle (get_view_parameters d));
        EvSetScene; EvRenderScene; EvToImage;
        EvImageSave "./ArgonSceneExporterThumbnail_thumbnail.jpeg";
        EvFboRelease]).
Proof.
  split; [reflexivity|].
  destruct (@C7_thumbnail_output string ops desktop (fresh_state "/home/user" loaded)
              (fst (export_thumbnail desktop (fresh_state "/home/user" loaded)))
              eq_refl eq_refl eq_refl) as [H _].
  exact H.
Defined.

End Runs.


(** * Further properties of [load] *)

Section LoadFacts.

Context {Doc : Type} `{DocOps : ArgonDocumentOps Doc}.

Implicit Types (env : Env) (st : State Doc).

(** [load] with a filename, path by path. *)
Lemma load_cases env (f : string) st :
  load env (Some f) st =
    match open_read env (cwd (world st)) f with
    | Raise e => load_except f e st
    | Return state =>
        if OsPath.is_empty (OsPath.dirname f) then load_except f (chdir_error "") st
        else
          match resolve_dir env (cwd (world st)) (OsPath.dirname f) with
          | None => load_except f (chdir_error (OsPath.dirname f)) st
          | Some dir =>
              match deserialize dir (initialiseVisualisationContents ArgonDocument)
                      state with
              | (d', Some e) => load_except f e (loading_state d' dir st)
              | (d', None) =>
                  if OsPath.is_empty (cwd (world st)) then
                    load_except f (chdir_error "") (loading_state d' dir st)
                  else
                    match resolve_dir env dir (cwd (world st)) with
                    | Some back => (loading_state d' back st, Return true)
                    | None =>
                        load_except f (chdir_error (cwd (world st)))
                          (loading_state d' dir st)
                    end
              end
          end
    end.
Proof.
  destruct st as [s w].
  unfold load, try_except, load_except, loading_state, read_text, chdir,
    document_initialiseVisualisationContents, document_deserialize.
  unfold_m. cbn.
  destruct (open_read env (cwd w) f) as [state|e]; cbn; [|reflexivity].
  destruct (OsPath.is_empty (OsPath.dirname f)); cbn; [reflexivity|].
  destruct (resolve_dir env (cwd w) (OsPath.dirname f)) as [dir|]; cbn;
    [|reflexivity].
  destruct (deserialize dir _ state) as [d' [e|]]; cbn; [reflexivity|].
  destruct (OsPath.is_empty (cwd w)); cbn; [reflexivity|].
  destruct (resolve_dir env dir (cwd w)); reflexivity.
Qed.

(** The [except] clauses: a caught exception gives [False] and one log
    line; an exception that is let through is not an [Exception]. *)
Lemma load_except_cases (f : string) (e : exn) st :
  (is_Exception e = true /\
   exists detail,
     load_except f e st
     = ({| self := self st;
           world := with_log (log (world st)
                              ++ ["Failed to load Argon visualisation " ++ f ++ ": "
                                  ++ detail]) (world st) |},
        Return false)) \/
  (is_Exception e = false /\ load_except f e st = (st, Raise e)).
Proof.
  unfold load_except, load_handler. unfold_m.
  destruct e as [[] msg]; cbn;
    first [ right; split; reflexivity
          | left; split; [reflexivity|]; eexists; reflexivity ].
Qed.

Lemma load_except_not_true (f : string) (e : exn) st :
  snd (load_except f e st) <> Return true.
Proof.
  destruct (load_except_cases f e st) as [(_ & detail & ->)|(_ & ->)]; discriminate.
Qed.

Lemma load_except_frame (f : string) (e : exn) st :
  self (fst (load_except f e st)) = self st /\
  cwd (world (fst (load_except f e st))) = cwd (world st).
Proof.
  destruct (load_except_cases f e st) as [(_ & detail & ->)|(_ & ->)]; now split.
Qed.

(** A name without ['/'] has the empty directory name. *)
Lemma upto_last_sep_no_sep (f : string) :
  has_sep f = false -> OsPath.upto_last_sep f = "".
Proof.
  induction f as [|c f IH]; cbn; [reflexivity|].
  intros H. apply orb_false_iff in H. destruct H as [Hc Hf].
  rewrite (IH Hf), Hc. reflexivity.
Qed.

Lemma dirname_no_sep (f : string) : has_sep f = false -> OsPath.dirname f = "".
Proof.
  intros H. unfold OsPath.dirname. rewrite (upto_last_sep_no_sep f H). reflexivity.
Qed.

(** The settings of the exporter are out of [load]'s reach. *)
Lemma load_settings env (filename : option string) st :
  _filename (self (fst (load env filename st))) = _filename (self st) /\
  _output_target (self (fst (load env filename st))) = _output_target (self st) /\
  _prefix (self (fst (load env filename st))) = _prefix (self st) /\
  _initialTime (self (fst (load env filename st))) = _initialTime (self st) /\
  _finishTime (self (fst (load env filename st))) = _finishTime (self st) /\
  _numberOfTimeSteps (self (fst (load env filename st))) = _numberOfTimeSteps (self st).
Proof.
  destruct filename as [f|]; [|now repeat split].
  rewrite load_cases.
  repeat match goal with
         | |- context [load_except f ?e ?x] =>
             let H := fresh "H" in
             destruct (load_except_frame f e x) as [H _];
             destruct (load_except f e x); cbn [fst] in *; rewrite H; clear H
         | |- context [match ?x with _ => _ end] => destruct x
         end; now repeat split.
Qed.

(** X1: when [load(filename)] returns [True], the file was read in the
    directory of the call, the process moved to the file's directory, a new
    initialised document deserialised the text there without raising,
    [os.chdir(current_wd)] succeeded, nothing was logged and the exporter
    differs from before only in its document.  The process is then in the
    directory the name [current_wd] resolved to: when that is the directory
    of the call, the process state is exactly what it was before. *)
Theorem X1_load_true env (f : string) st st' :
  load env (Some f) st = (st', Return true) ->
  exists state dir d' back,
    open_read env (cwd (world st)) f = Return state /\
    resolve_dir env (cwd (world st)) (OsPath.dirname f) = Some dir /\
    deserialize dir (initialiseVisualisationContents ArgonDocument) state
    = (d', None) /\
    resolve_dir env dir (cwd (world st)) = Some back /\
    st' = {| self := with_document (Some d') (self st);
             world := with_cwd back (world st) |} /\
    (back = cwd (world st) -> world st' = world st).
Proof.
  rewrite load_cases. intros H.
  assert (Hne : forall e x, load_except f e x <> (st', Return true)).
  { intros e x Hx. apply (load_except_not_true f e x). now rewrite Hx. }
  destruct (open_read env (cwd (world st)) f) as [state|e]; [|now apply Hne in H].
  destruct (OsPath.is_empty (OsPath.dirname f)); [now apply Hne in H|].
  destruct (resolve_dir env (cwd (world st)) (OsPath.dirname f)) as [dir|];
    [|now apply Hne in H].
  destruct (deserialize dir _ state) as [d' [e|]] eqn:Hd; [now apply Hne in H|].
  destruct (OsPath.is_empty (cwd (world st))); [now apply Hne in H|].
  destruct (resolve_dir env dir (cwd (world st))) as [back|] eqn:Hb;
    [|now apply Hne in H].
  exists state, dir, d', back. inversion H.
  do 5 (split; [first [reflexivity | assumption]|]).
  intros ->. cbn. destruct (world st); reflexivity.
Qed.

(** X2: [load] with a filename lets no [Exception] escape: it returns
    [True] and logs nothing, or returns [False] and logs exactly one line
    that starts with ['Failed to load Argon visualisation <filename>: '], or
    raises something that is not an [Exception] and logs nothing. *)
Theorem X2_load_outcome_and_log env (f : string) st :
  match snd (load env (Some f) st) with
  | Return true => log (world (fst (load env (Some f) st))) = log (world st)
  | Return false =>
      exists detail,
        log (world (fst (load env (Some f) st)))
        = (log (world st)
           ++ [("Failed to load Argon visualisation " ++ f ++ ": " ++ detail)%string])%list
  | Raise e =>
      is_Exception e = false /\
      log (world (fst (load env (Some f) st))) = log (world st)
  end.
Proof.
  assert (Hex : forall (e : exn) (x : State Doc),
             log (world x) = log (world st) ->
             match snd (load_except f e x) with
             | Return true => log (world (fst (load_except f e x))) = log (world st)
             | Return false =>
                 exists detail,
                   log (world (fst (load_except f e x)))
                   = (log (world st)
                      ++ [("Failed to load Argon visualisation " ++ f ++ ": "
                           ++ detail)%string])%list
             | Raise e' =>
                 is_Exception e' = false /\
                 log (world (fst (load_except f e x))) = log (world st)
             end).
  { intros e x Hx.
    destruct (load_except_cases f e x) as [(_ & detail & ->)|(Hn & ->)]; cbn.
    - exists detail. now rewrite Hx.
    - now split. }
  rewrite load_cases.
  destruct (open_read env (cwd (world st)) f) as [state|e]; [|now apply Hex].
  destruct (OsPath.is_empty (OsPath.dirname f)); [now apply Hex|].
  destruct (resolve_dir env (cwd (world st)) (OsPath.dirname f)) as [dir|];
    [|now apply Hex].
  destruct (deserialize dir _ state) as [d' [e|]]; [now apply Hex|].
  destruct (OsPath.is_empty (cwd (world st))); [now apply Hex|].
  destruct (resolve_dir env dir (cwd (world st))) as [back|]; [reflexivity|].
  now apply Hex.
Qed.

(** X3: [load] changes none of the exporter's settings; in particular it
    does not record the filename it was given, on success or on failure. *)
Theorem X3_load_keeps_settings env (filename : option string) st :
  _filename (self (fst (load env filename st))) = _filename (self st) /\
  _output_target (self (fst (load env filename st))) = _output_target (self st) /\
  _prefix (self (fst (load env filename st))) = _prefix (self st) /\
  _initialTime (self (fst (load env filename st))) = _initialTime (self st) /\
  _finishTime (self (fst (load env filename st))) = _finishTime (self st) /\
  _numberOfTimeSteps (self (fst (load env filename st))) = _numberOfTimeSteps (self st).
Proof. apply load_settings. Qed.

(** X4: a filename without a directory part (no ['/']) is never loaded:
    [os.path.dirname] gives [''], [os.chdir('')] raises, and [load] does not
    return [True]; the exporter, its document included, and the working
    directory are as before. *)
Theorem X4_load_bare_filename env (f : string) st :
  has_sep f = false ->
  snd (load env (Some f) st) <> Return true /\
  self (fst (load env (Some f) st)) = self st /\
  cwd (world (fst (load env (Some f) st))) = cwd (world st).
Proof.
  intros H. rewrite load_cases, (dirname_no_sep f H). cbn [OsPath.is_empty].
  destruct (open_read env (cwd (world st)) f) as [state|e];
    (split; [apply load_except_not_true | apply load_except_frame]).
Qed.

(** X5: when the file cannot be read ([open] or [read] raises an
    [Exception]), [load] returns [False] and keeps the document it had: only
    the log has changed. *)
Theorem X5_load_unreadable env (f : string) st (e : exn) :
  open_read env (cwd (world st)) f = Raise e ->
  is_Exception e = true ->
  snd (load env (Some f) st) = Return false /\
  self (fst (load env (Some f) st)) = self st /\
  cwd (world (fst (load env (Some f) st))) = cwd (world st).
Proof.
  intros Ho He. rewrite load_cases, Ho.
  destruct (load_except_cases f e st) as [(_ & detail & ->)|(Hn & _)];
    [now repeat split | congruence].
Qed.

(** X6: when the deserialisation raises an [Exception], [load] returns
    [False] with the process left in the file's directory and the previous
    document replaced by the new one, as far as it was deserialised. *)
Theorem X6_load_deserialize_failure env (f state dir : string) st (d' : Doc) (e : exn) :
  open_read env (cwd (world st)) f = Return state ->
  OsPath.is_empty (OsPath.dirname f) = false ->
  resolve_dir env (cwd (world st)) (OsPath.dirname f) = Some dir ->
  deserialize dir (initialiseVisualisationContents ArgonDocument) state
  = (d', Some e) ->
  is_Exception e = true ->
  snd (load env (Some f) st) = Return false /\
  cwd (world (fst (load env (Some f) st))) = dir /\
  _document (self (fst (load env (Some f) st))) = Some d'.
Proof.
  intros Ho Hn Hr Hd He. rewrite load_cases, Ho, Hn, Hr, Hd.
  destruct (load_except_cases f e (loading_state d' dir st))
    as [(_ & detail & ->)|(Hx & _)]; [now repeat split | congruence].
Qed.

End LoadFacts.

(** * Further properties of [export_thumbnail] *)

Section ThumbnailFacts.

Context {Doc : Type} `{DocOps : ArgonDocumentOps Doc}.

Implicit Types (env : Env) (st : State Doc).

(** X7: no [ImportError] leaves [export_thumbnail].  When anything inside
    the [try] - an import or a library call of the rendering block - raises
    one, the caller gets [OpenCMISSExportThumbnailError] instead; every
    other exception reaches the caller as it was raised, and a normal
    return stays a normal return; the state is the one the [try] body
    left. *)
Theorem X7_no_import_error_escapes env st :
  fst (export_thumbnail env st) = fst (export_thumbnail_body env st) /\
  match snd (export_thumbnail_body env st) with
  | Return _ => snd (export_thumbnail env st) = Return tt
  | Raise e =>
      snd (export_thumbnail env st)
      = Raise (if is_ImportError e
               then Exn OpenCMISSExportThumbnailError
                      "Thumbnail export not supported without optional requirement PySide2"
               else e)
  end /\
  (forall e, snd (export_thumbnail env st) = Raise e -> is_ImportError e = false).
Proof.
  unfold export_thumbnail, try_except.
  destruct (export_thumbnail_body env st) as [st1 [[]|e]]; cbn [fst snd].
  - repeat split. discriminate.
  - destruct (is_ImportError e) eqn:He; cbn; repeat split;
      intros e' H; inversion H; subst; [reflexivity | exact He].
Qed.

(** X8: with PySide2 installed but [opencmiss.zinc] missing, the call
    fails as if PySide2 were missing - same error, same message - before
    any Qt object is created. *)
Theorem X8_missing_zinc env st :
  PySide2_importable env = true -> zinc_importable env = false ->
  export_thumbnail env st
  = (st, Raise (Exn OpenCMISSExportThumbnailError
       "Thumbnail export not supported without optional requirement PySide2")).
Proof.
  intros Hp Hz. rewrite export_thumbnail_unfold, Hp, Hz. reflexivity.
Qed.

(** X9: [export_thumbnail] never changes the exporter object, the working
    directory or the log, whether it returns or raises. *)
Theorem X9_thumbnail_frame env st :
  self (fst (export_thumbnail env st)) = self st /\
  cwd (world (fst (export_thumbnail env st))) = cwd (world st) /\
  log (world (fst (export_thumbnail env st))) = log (world st).
Proof. exact (export_thumbnail_frame env st). Qed.

(** X10: on no path on which [export_thumbnail] raises has the
    framebuffer object been released. *)
Theorem X10_raise_without_release env st (e : exn) :
  snd (export_thumbnail env st) = Raise e ->
  ~ In EvFboRelease (emitted st (fst (export_thumbnail env st))).
Proof. apply raise_means_not_released. Qed.

(** X11: when the toolkit imports, the surface and the context are there,
    no library call raises, a document is set and at most one of
    [_initialTime], [_finishTime] is set, [export_thumbnail] returns
    normally and has issued the complete sequence of calls, the image saved
    once to [os.path.join(_output_target, _prefix + '_thumbnail.jpeg')] and
    the framebuffer object released last. *)
Theorem X11_thumbnail_succeeds env st (d : Doc) :
  PySide2_importable env = true -> zinc_importable env = true ->
  off_screen_isValid env = true -> context_create env = true ->
  (forall step, raises env step = None) ->
  _document (self st) = Some d ->
  _initialTime (self st) = None \/ _finishTime (self st) = None ->
  snd (export_thumbnail env st) = Return tt /\
  emitted st (fst (export_thumbnail env st))
  = thumbnail_events (qapp_instance (world st))
      (OsPath.join (_output_target (self st)) (_prefix (self st) ++ "_thumbnail.jpeg"))
      (get_view_parameters d).
Proof.
  intros Hp Hz Hv Hc Hsteps Hd Ht.
  rewrite export_thumbnail_unfold, Hp, Hz, Hv, Hc. cbn [andb]. cbv zeta.
  destruct st as [[ot pf doc fn t0 t1 n] w]; cbn in Hd, Ht |- *. subst doc.
  assert (Htv : time_varying
                  {| _output_target := ot; _prefix := pf; _document := Some d;
                     _filename := fn; _initialTime := t0; _finishTime := t1;
                     _numberOfTimeSteps := n |} = false)
    by (unfold time_varying; cbn; destruct Ht as [-> | ->]; [reflexivity|];
        destruct t0; reflexivity).
  unfold render_block, thumbnail_path. unfold_m.
  cbn -[time_varying]. rewrite ?Hsteps. cbn -[time_varying].
  rewrite Htv. cbn. rewrite ?Hsteps. cbn.
  split; [reflexivity|].
  apply emitted_app. cbn. unfold ensure_qapp, thumbnail_events.
  destruct (qapp_instance w); cbn; rewrite <- ?app_assoc; reflexivity.
Qed.

(** X12: called with no document set, in an environment where everything
    else works, [export_thumbnail] raises [AttributeError] at
    [self._document.getZincContext()], after the framebuffer object has
    been created and bound. *)
Theorem X12_thumbnail_without_document env st :
  PySide2_importable env = true -> zinc_importable env = true ->
  off_screen_isValid env = true -> context_create env = true ->
  (forall step, raises env step = None) ->
  _document (self st) = None ->
  snd (export_thumbnail env st)
  = Raise (Exn AttributeError "'NoneType' object has no attribute 'getZincContext'") /\
  emitted st (fst (export_thumbnail env st))
  = ((if qapp_instance (world st) then [] else [EvQGuiApplication])
     ++ [EvOffscreenSurfaceCreate; EvContextCreate; EvMakeCurrent;
         EvFboNew 512 512
           {| fmt_attachment := CombinedDepthStencil; fmt_samples := 4 |};
         EvFboBind])%list.
Proof.
  intros Hp Hz Hv Hc Hsteps Hd.
  rewrite export_thumbnail_unfold, Hp, Hz, Hv, Hc. cbn [andb]. cbv zeta.
  destruct st as [[ot pf doc fn t0 t1 n] w]; cbn in Hd |- *. subst doc.
  unfold render_block. unfold_m. cbn. rewrite !Hsteps. cbn.
  split; [reflexivity|].
  apply emitted_app. cbn. unfold ensure_qapp.
  destruct (qapp_instance w); cbn; rewrite <- ?app_assoc; reflexivity.
Qed.

Lemma save_in_draw (n : nat) (p path : string) (v : ViewParameters) :
  In (EvImageSave p) (firstn n (draw_events path v)) ->
  p = path /\ In EvRenderScene (firstn n (draw_events path v)).
Proof.
  intros H.
  do 8 (destruct n as [|n];
        [cbn in H; repeat (destruct H as [H|H]; [discriminate H|]); destruct H|]).
  assert (Hp : In (EvImageSave p) (draw_events path v)) by exact (In_firstn _ _ _ H).
  cbn in Hp. repeat (destruct Hp as [Hp|Hp]; try discriminate Hp).
  - inversion Hp. split; [reflexivity|]. cbn. tauto.
  - destruct Hp.
Qed.

(** X13: an image is saved only by a call that had a document, was not
    asked for a time range, had the framebuffer object bound and the scene
    rendered; and only to
    [os.path.join(_output_target, _prefix + '_thumbnail.jpeg')]. *)
Theorem X13_saved_means_rendered env st (p : string) :
  In (EvImageSave p) (emitted st (fst (export_thumbnail env st))) ->
  p = OsPath.join (_output_target (self st)) (_prefix (self st) ++ "_thumbnail.jpeg") /\
  In EvFboBind (emitted st (fst (export_thumbnail env st))) /\
  In EvRenderScene (emitted st (fst (export_thumbnail env st))) /\
  _document (self st) <> None /\
  (_initialTime (self st) = None \/ _finishTime (self st) = None).
Proof.
  intros Hin.
  pose proof (export_thumbnail_emitted env st) as H. cbv zeta in H.
  assert (Happ : ~ In (EvImageSave p)
                     (if qapp_instance (world st) then [] else [EvQGuiApplication]))
    by (destruct (qapp_instance (world st)); cbn; [tauto|intros [?|[]]; discriminate]).
  assert (Htimes : time_varying (self st) = false ->
                   _initialTime (self st) = None \/ _finishTime (self st) = None).
  { unfold time_varying. destruct (_initialTime (self st)); [|now left].
    destruct (_finishTime (self st)); [discriminate|now right]. }
  destruct (PySide2_importable env && zinc_importable env).
  2:{ destruct H as [H _]. rewrite H in Hin. destruct Hin. }
  destruct (off_screen_isValid env).
  2:{ destruct H as [H _]. rewrite H in Hin. apply in_app_or in Hin.
      destruct Hin as [Hin|[Hin|[]]]; [tauto|discriminate]. }
  destruct (context_create env).
  2:{ destruct H as [H _]. rewrite H in Hin. apply in_app_or in Hin.
      destruct Hin as [Hin|[Hin|[Hin|[]]]]; [tauto|discriminate|discriminate]. }
  destruct H as (delta & He & Hd). rewrite He in Hin |- *.
  apply in_app_or in Hin. destruct Hin as [Hin|Hin]; [tauto|].
  cbn in Hin. destruct Hin as [Hin|[Hin|Hin]]; try discriminate.
  assert (Hgoal : exists d n,
             _document (self st) = Some d /\ time_varying (self st) = false /\
             delta = (setup_events
                      ++ firstn n (draw_events (thumbnail_path (self st))
                                     (get_view_parameters d)))%list).
  { destruct (snd (export_thumbnail env st)).
    - destruct Hd as (d & Hdoc & Hf & ->). exists d, 9%nat. now repeat split.
    - destruct Hd as [(n & ->)|(d & n & Hdoc & Hf & _ & ->)].
      + destruct (save_not_in_setup _ _ Hin).
      + exists d, n. now repeat split. }
  destruct Hgoal as (d & n & Hdoc & Hf & ->).
  apply in_app_or in Hin. destruct Hin as [Hin|Hin].
  { destruct (save_not_in_setup 5 _ Hin). }
  destruct (save_in_draw _ _ _ _ Hin) as [-> Hrender].
  split; [reflexivity|]. split; [|split; [|split]].
  - apply in_or_app. right. cbn. tauto.
  - do 3 (apply in_or_app; right). exact Hrender.
  - congruence.
  - exact (Htimes Hf).
Qed.

End ThumbnailFacts.

(** * Further properties of [export] and of the output path *)

Section ExportFacts.

Context {Doc : Type} `{DocOps : ArgonDocumentOps Doc}.

Implicit Types (env : Env) (st : State Doc).

(** X14: [export] on an exporter with neither document nor filename does
    not fail on the missing file name: [load(None)] says [False] without a
    log line, and the thumbnail of a new, initialised, empty document is
    exported. *)
Theorem X14_export_without_filename env (output_target : option string) st :
  _document (self st) = None ->
  _filename (self st) = None ->
  export env output_target st
  = export_thumbnail env
      (export_state output_target (initialiseVisualisationContents ArgonDocument) st).
Proof.
  intros Hd Hf. rewrite (export_unfold_none env output_target st Hd), Hf.
  reflexivity.
Qed.

(** X15: the [output_target] argument of [export] is a lasting override:
    however the call ends, the exporter's [_output_target] is afterwards the
    argument if one was given, and what it was before otherwise. *)
Theorem X15_export_retargets env (output_target : option string) st :
  _output_target (self (fst (export env output_target st)))
  = match output_target with
    | Some t => t
    | None => _output_target (self st)
    end.
Proof.
  assert (Hs : forall d : Doc,
             _output_target (self (export_state output_target d st))
             = match output_target with
               | Some t => t
               | None => _output_target (self st)
               end)
    by (intros d; destruct output_target; reflexivity).
  destruct (_document (self st)) as [d|] eqn:Hd.
  - rewrite (export_unfold_some env output_target st Hd).
    destruct (deserialize _ _ _) as [d' [e|]]; [apply Hs|].
    destruct (export_thumbnail_frame env (export_state output_target d' st)) as [-> _].
    apply Hs.
  - rewrite (export_unfold_none env output_target st Hd).
    match goal with |- context [load env ?f ?x] =>
      destruct (load_settings env f x) as (_ & Ht & _);
      destruct (load env f x) as [st2 [b|e]] end; cbn [fst] in *.
    + destruct (export_thumbnail_frame env st2) as [-> _]. rewrite Ht. apply Hs.
    + rewrite Ht. apply Hs.
Qed.

(** X16: [export] on an exporter that has a document leaves the working
    directory and the log alone: no file is opened, no directory entered,
    nothing logged, whether the call returns or raises. *)
Theorem X16_export_with_document_frame env (output_target : option string) st
    (d : Doc) :
  _document (self st) = Some d ->
  cwd (world (fst (export env output_target st))) = cwd (world st) /\
  log (world (fst (export env output_target st))) = log (world st).
Proof.
  intros Hd. rewrite (export_unfold_some env output_target st Hd).
  destruct (deserialize _ _ _) as [d' [e|]]; [now split|].
  destruct (export_thumbnail_frame env (export_state output_target d' st))
    as (_ & -> & ->).
  now split.
Qed.

(** *** The output path *)

Lemma startswith_sep_app_l (p q : string) :
  OsPath.startswith_sep p = true -> OsPath.startswith_sep (p ++ q) = true.
Proof. destruct p; cbn; [discriminate | auto]. Qed.

(** X17: a prefix that starts with ['/'] takes the image out of the output
    directory: a successful [export_thumbnail] then saves to
    [_prefix + '_thumbnail.jpeg'], whatever [_output_target] is. *)
Theorem X17_absolute_prefix env st st' :
  export_thumbnail env st = (st', Return tt) ->
  off_screen_isValid env = true -> context_create env = true ->
  OsPath.startswith_sep (_prefix (self st)) = true ->
  In (EvImageSave (_prefix (self st) ++ "_thumbnail.jpeg")) (emitted st st').
Proof.
  intros Hrun Hv Hc Hp.
  pose proof (export_thumbnail_emitted env st) as H. cbv zeta in H.
  rewrite Hrun, Hv, Hc in H. cbn [fst snd] in H.
  destruct (PySide2_importable env && zinc_importable env);
    [|destruct H; discriminate].
  destruct H as (delta & -> & d & _ & _ & ->).
  unfold thumbnail_path, OsPath.join.
  rewrite (startswith_sep_app_l _ "_thumbnail.jpeg" Hp).
  do 3 (apply in_or_app; right). cbn. tauto.
Qed.

Lemma has_sep_app (p q : string) :
  has_sep (p ++ q) = has_sep p || has_sep q.
Proof.
  induction p as [|c p IH]; cbn; [reflexivity|]. now rewrite IH, orb_assoc.
Qed.

Lemma startswith_no_sep (b : string) :
  has_sep b = false -> OsPath.startswith_sep b = false.
Proof.
  destruct b as [|c b]; cbn; [reflexivity|].
  intros H. now apply orb_false_iff in H.
Qed.

Lemma upto_last_sep_join (a b : string) :
  has_sep b = false ->
  OsPath.upto_last_sep (a ++ String OsPath.sep b) = a ++ String OsPath.sep "".
Proof.
  intros Hb. induction a as [|c a IH].
  - cbn. rewrite (upto_last_sep_no_sep b Hb). reflexivity.
  - cbn [append OsPath.upto_last_sep]. rewrite IH.
    destruct a; reflexivity.
Qed.

Lemma all_sep_snoc (a : string) :
  OsPath.all_sep (a ++ String OsPath.sep "") = OsPath.all_sep a.
Proof.
  induction a as [|c a IH]; cbn; [reflexivity|]. now rewrite IH.
Qed.

Lemma rstrip_sep_snoc (a : string) :
  OsPath.rstrip_sep (a ++ String OsPath.sep "") = OsPath.rstrip_sep a.
Proof.
  induction a as [|c a IH]; cbn; [reflexivity|].
  cbn in IH. now rewrite IH.
Qed.

Lemma rstrip_sep_id (a : string) :
  OsPath.endswith_sep a = false -> OsPath.rstrip_sep a = a.
Proof.
  induction a as [|c a IH]; [reflexivity|].
  destruct a as [|c' a].
  - cbn. now intros ->.
  - intros H. change (OsPath.endswith_sep (String c' a) = false) in H.
    specialize (IH H). remember (String c' a) as r eqn:Hr.
    cbn [OsPath.rstrip_sep]. rewrite IH, Hr. reflexivity.
Qed.

Lemma all_sep_endswith (a : string) :
  OsPath.is_empty a = false -> OsPath.all_sep a = true ->
  OsPath.endswith_sep a = true.
Proof.
  induction a as [|c a IH]; [discriminate|].
  intros _ H. cbn in H. apply andb_true_iff in H. destruct H as [Hc Ha].
  destruct a as [|c' a]; [exact Hc|].
  change (OsPath.endswith_sep (String c' a) = true). now apply IH.
Qed.

(** X18: for an output directory written without a trailing ['/'] and a
    prefix without ['/'], the path the image is saved to lies directly in
    the output directory: its [os.path.dirname] is [_output_target]. *)
Theorem X18_thumbnail_in_output_directory (s : ArgonSceneExporter Doc) :
  OsPath.endswith_sep (_output_target s) = false ->
  has_sep (_prefix s) = false ->
  OsPath.dirname (thumbnail_path s) = _output_target s.
Proof.
  intros Ht Hp. unfold thumbnail_path, OsPath.join.
  assert (Hb : has_sep (_prefix s ++ "_thumbnail.jpeg") = false)
    by (rewrite has_sep_app, Hp; reflexivity).
  rewrite (startswith_no_sep _ Hb), Ht, orb_false_r.
  destruct (OsPath.is_empty (_output_target s)) eqn:He.
  - destruct (_output_target s); [|discriminate]. cbn [append].
    apply (dirname_no_sep _ Hb).
  - unfold OsPath.dirname. rewrite (upto_last_sep_join _ _ Hb).
    rewrite all_sep_snoc, rstrip_sep_snoc.
    assert (Hall : OsPath.all_sep (_output_target s) = false).
    { destruct (OsPath.all_sep (_output_target s)) eqn:Ha; [|reflexivity].
      rewrite (all_sep_endswith _ He Ha) in Ht. discriminate. }
    rewrite Hall, andb_true_r.
    destruct (_output_target s) as [|c a]; [discriminate|]. cbn [append OsPath.is_empty negb].
    now apply rstrip_sep_id.
Qed.

End ExportFacts.

(** * The further properties on concrete inputs *)

Section MoreRuns.

Import TextDocument Scenarios.

Lemma X1_load_true_witness :
  load desktop (Some "/data/heart.argon") (fresh_state "/home/user" exporter)
  = ({| self := with_document (Some "{heart}") exporter;
        world := fresh_world "/home/user" |}, Return true) /\
  exists state dir d' back,
    open_read desktop "/home/user" "/data/heart.argon" = Return state /\
    resolve_dir desktop "/home/user" (OsPath.dirname "/data/heart.argon") = Some dir /\
    deserialize dir (initialiseVisualisationContents ArgonDocument) state = (d', None) /\
    resolve_dir desktop dir "/home/user" = Some back /\
    {| self := with_document (Some "{heart}") exporter;
       world := fresh_world "/home/user" |}
    = {| self := with_document (Some d') exporter;
         world := with_cwd back (fresh_world "/home/user") |} /\
    (back = "/home/user" -> fresh_world "/home/user" = fresh_world "/home/user").
Proof.
  split; [reflexivity|].
  exact (@X1_load_true string ops desktop "/data/heart.argon"
           (fresh_state "/home/user" exporter) _ eq_refl).
Defined.

Lemma X4_load_bare_filename_witness :
  has_sep "heart.argon" = false /\
  snd (load local (Some "heart.argon") (fresh_state "/home/user" exporter))
  <> Return true /\
  self (fst (load local (Some "heart.argon") (fresh_state "/home/user" exporter)))
  = exporter /\
  cwd (world (fst (load local (Some "heart.argon")
                     (fresh_state "/home/user" exporter)))) = "/home/user".
Proof.
  split; [reflexivity|].
  exact (@X4_load_bare_filename string ops local "heart.argon"
           (fresh_state "/home/user" exporter) eq_refl).
Defined.

Lemma X5_load_unreadable_witness :
  open_read desktop "/home/user" "/data/missing.argon"
  = Raise (Exn IOError "[Errno 2] No such file or directory: '/data/missing.argon'") /\
  snd (load desktop (Some "/data/missing.argon") (fresh_state "/home/user" loaded))
  = Return false /\
  self (fst (load desktop (Some "/data/missing.argon")
               (fresh_state "/home/user" loaded))) = loaded /\
  cwd (world (fst (load desktop (Some "/data/missing.argon")
                     (fresh_state "/home/user" loaded)))) = "/home/user".
Proof.
  split; [reflexivity|].
  exact (@X5_load_unreadable string ops desktop "/data/missing.argon"
           (fresh_state "/home/user" loaded) _ eq_refl eq_refl).
Defined.

Lemma X6_load_deserialize_failure_witness :
  open_read desktop "/home/user" "/data/bad.argon" = Return "!" /\
  resolve_dir desktop "/home/user" (OsPath.dirname "/data/bad.argon") = Some "/data" /\
  snd (load desktop (Some "/data/bad.argon") (fresh_state "/home/user" loaded))
  = Return false /\
  cwd (world (fst (load desktop (Some "/data/bad.argon")
                     (fresh_state "/home/user" loaded)))) = "/data" /\
  _document (self (fst (load desktop (Some "/data/bad.argon")
                          (fresh_state "/home/user" loaded)))) = Some "".
Proof.
  split; [reflexivity|]. split; [reflexivity|].
  exact (@X6_load_deserialize_failure string ops desktop "/data/bad.argon" "!" "/data"
           (fresh_state "/home/user" loaded) "" (Exn ArgonError "malformed document")
           eq_refl eq_refl eq_refl eq_refl eq_refl).
Defined.

Lemma X7_no_import_error_escapes_witness :
  snd (export_thumbnail_body late_import (fresh_state "/home/user" loaded))
  = Raise (Exn ImportError "No module named 'OpenGL'") /\
  snd (export_thumbnail late_import (fresh_state "/home/user" loaded))
  = Raise not_installed /\
  is_ImportError not_installed = false.
Proof.
  split; [reflexivity|]. split; [reflexivity|].
  destruct (@X7_no_import_error_escapes string ops late_import
              (fresh_state "/home/user" loaded)) as (_ & _ & H).
  exact (H not_installed eq_refl).
Defined.

Lemma X8_missing_zinc_witness :
  PySide2_importable no_zinc = true /\ zinc_importable no_zinc = false /\
  export_thumbnail no_zinc (fresh_state "/home/user" loaded)
  = (fresh_state "/home/user" loaded,
     Raise (Exn OpenCMISSExportThumbnailError
              "Thumbnail export not supported without optional requirement PySide2")).
Proof.
  split; [reflexivity|]. split; [reflexivity|].
  exact (@X8_missing_zinc string ops no_zinc (fresh_state "/home/user" loaded)
           eq_refl eq_refl).
Defined.

Lemma X10_raise_without_release_witness :
  snd (export_thumbnail render_fails (fresh_state "/home/user" loaded))
  = Raise (Exn RuntimeError "render failed") /\
  ~ In EvFboRelease
      (emitted (fresh_state "/home/user" loaded)
         (fst (export_thumbnail render_fails (fresh_state "/home/user" loaded)))).
Proof.
  split; [reflexivity|].
  exact (@X10_raise_without_release string ops render_fails
           (fresh_state "/home/user" loaded) _ eq_refl).
Defined.

Lemma X11_thumbnail_succeeds_witness :
  (_initialTime one_sided = None \/ _finishTime one_sided = None) /\
  snd (export_thumbnail desktop (fresh_state "/home/user" one_sided)) = Return tt /\
  emitted (fresh_state "/home/user" one_sided)
    (fst (export_thumbnail desktop (fresh_state "/home/user" one_sided)))
  = thumbnail_events false "./heart_thumbnail.jpeg" view.
Proof.
  split; [right; reflexivity|].
  apply (@X11_thumbnail_succeeds string ops desktop (fresh_state "/home/user" one_sided)
           "{heart}" eq_refl eq_refl eq_refl eq_refl (fun _ => eq_refl) eq_refl).
  right; reflexivity.
Defined.

Lemma X12_thumbnail_without_document_witness :
  _document exporter = None /\
  snd (export_thumbnail desktop (fresh_state "/home/user" exporter))
  = Raise (Exn AttributeError "'NoneType' object has no attribute 'getZincContext'") /\
  emitted (fresh_state "/home/user" exporter)
    (fst (export_thumbnail desktop (fresh_state "/home/user" exporter)))
  = [EvQGuiApplication; EvOffscreenSurfaceCreate; EvContextCreate; EvMakeCurrent;
     EvFboNew 512 512 {| fmt_attachment := CombinedDepthStencil; fmt_samples := 4 |};
     EvFboBind].
Proof.
  split; [reflexivity|].
  exact (@X12_thumbnail_without_document string ops desktop
           (fresh_state "/home/user" exporter)
           eq_refl eq_refl eq_refl eq_refl (fun _ => eq_refl) eq_refl).
Defined.

Lemma X13_saved_means_rendered_witness :
  In (EvImageSave "./ArgonSceneExporterThumbnail_thumbnail.jpeg")
     (emitted (fresh_state "/home/user" loaded)
        (fst (export_thumbnail desktop (fresh_state "/home/user" loaded)))) /\
  In EvFboBind
     (emitted (fresh_state "/home/user" loaded)
        (fst (export_thumbnail desktop (fresh_state "/home/user" loaded)))) /\
  In EvRenderScene
     (emitted (fresh_state "/home/user" loaded)
        (fst (export_thumbnail desktop (fresh_state "/home/user" loaded)))).
Proof.
  assert (Hin : In (EvImageSave "./ArgonSceneExporterThumbnail_thumbnail.jpeg")
                  (emitted (fresh_state "/home/user" loaded)
                     (fst (export_thumbnail desktop (fresh_state "/home/user" loaded)))))
    by (vm_compute; tauto).
  split; [exact Hin|].
  destruct (@X13_saved_means_rendered string ops desktop
              (fresh_state "/home/user" loaded) _ Hin) as (_ & Hb & Hr & _).
  split; [exact Hb | exact Hr].
Defined.

Lemma X14_export_without_filename_witness :
  _document exporter = None /\ _filename exporter = None /\
  export desktop (Some "out") (fresh_state "/home/user" exporter)
  = export_thumbnail desktop
      (export_state (Some "out") "" (fresh_state "/home/user" exporter)).
Proof.
  split; [reflexivity|]. split; [reflexivity|].
  exact (@X14_export_without_filename string ops desktop (Some "out")
           (fresh_state "/home/user" exporter) eq_refl eq_refl).
Defined.

Lemma X16_export_with_document_frame_witness :
  _document loaded = Some "{heart}" /\
  cwd (world (fst (export desktop None (fresh_state "/home/user" loaded))))
  = "/home/user" /\
  log (world (fst (export desktop None (fresh_state "/home/user" loaded)))) = [].
Proof.
  split; [reflexivity|].
  exact (@X16_export_with_document_frame string ops desktop None
           (fresh_state "/home/user" loaded) "{heart}" eq_refl).
Defined.

Lemma X17_absolute_prefix_witness :
  _output_target absolute_prefix = "out" /\
  OsPath.startswith_sep (_prefix absolute_prefix) = true /\
  In (EvImageSave "/tmp/heart_thumbnail.jpeg")
     (emitted (fresh_state "/home/user" absolute_prefix)
        (fst (export_thumbnail desktop (fresh_state "/home/user" absolute_prefix)))).
Proof.
  split; [reflexivity|]. split; [reflexivity|].
  exact (@X17_absolute_prefix string ops desktop
           (fresh_state "/home/user" absolute_prefix)
           (fst (export_thumbnail desktop (fresh_state "/home/user" absolute_prefix)))
           eq_refl eq_refl eq_refl eq_refl).
Defined.

Lemma X18_thumbnail_in_output_directory_witness :
  OsPath.endswith_sep (_output_target loaded) = false /\
  has_sep (_prefix loaded) = false /\
  OsPath.dirname (thumbnail_path loaded) = ".".
Proof.
  split; [reflexivity|]. split; [reflexivity|].
  exact (@X18_thumbnail_in_output_directory string loaded eq_refl eq_refl).
Defined.

End MoreRuns.


(** * [export] on the Document Store *)

Section DocumentStoreFacts.

Import DocumentStore.



End DocumentStoreFacts.

(** * The output path on concrete inputs *)

Section OutputRuns.

Import TextDocument Scenarios.

(** C7, counterexample: a call without a display returns normally and
    saves nothing; and a call whose prefix is an absolute path returns
    normally having saved the image outside the output directory. *)
Lemma C7_counterexample :
  (snd (export_thumbnail no_display (fresh_state "/home/user" loaded)) = Return tt /\
   forall path,
     ~ In (EvImageSave path)
         (emitted (fresh_state "/home/user" loaded)
            (fst (export_thumbnail no_display (fresh_state "/home/user" loaded))))) /\
  (_output_target absolute_prefix = "out" /\ _prefix absolute_prefix = "/tmp/heart" /\
   snd (export_thumbnail desktop (fresh_state "/home/user" absolute_prefix))
   = Return tt /\
   In (EvImageSave "/tmp/heart_thumbnail.jpeg")
      (emitted (fresh_state "/home/user" absolute_prefix)
         (fst (export_thumbnail desktop (fresh_state "/home/user" absolute_prefix)))) /\
   ~ In (EvImageSave "out//tmp/heart_thumbnail.jpeg")
       (emitted (fresh_state "/home/user" absolute_prefix)
          (fst (export_thumbnail desktop (fresh_state "/home/user" absolute_prefix))))).
Proof.
  split.
  - split; [reflexivity|]. intros path. vm_compute.
    intros [H|[H|[]]]; discriminate H.
  - do 3 (split; [reflexivity|]). split; vm_compute.
    + tauto.
    + intros H. repeat (destruct H as [H|H]; [discriminate H|]). exact H.
Qed.

End OutputRuns.
